(** * TaskForm: validation and submission life cycle

    Shallow embedding of [src/frontend/components/TaskForm.tsx]: the
    component state held in the [useState] cells, the three handlers
    [validateForm], [handleSubmit] and [handleChange], and the [disabled]
    attributes of the rendered controls.

    - A JavaScript string is the list of its UTF-16 code units, so that
      [length] is the [.length] of the source.
    - The [ValidationErrors] object is a finite map from property names to
      property values; a property may be present with the value [undefined].
    - The handlers are programs in a small state-and-exception monad over
      the component state and the trace of outside effects (calls of the
      [onSubmit] prop, [toast.error] notifications). *)

From Stdlib Require Import NArith Ascii String.
From stdpp Require Import gmap strings list.

Set Default Proof Using "Type".

(** ** JavaScript strings *)

(** A string value: its sequence of UTF-16 code units. *)
Abbreviation jsstring := (list N).

(** An ASCII literal of the source as a string value. *)
Definition lit (s : string) : jsstring :=
  map N_of_ascii (list_ascii_of_string s).

(** Truthiness of a string: only the empty string is falsy. *)
Definition truthy (s : jsstring) : bool :=
  match s with
  | [] => false
  | _ :: _ => true
  end.

(** Code units stripped by [String.prototype.trim]: WhiteSpace (TAB, VT,
    FF, ZWNBSP and the Space_Separator category) and LineTerminator (LF, CR,
    LS, PS). All of them are in the Basic Multilingual Plane, hence single
    code units. *)
Definition is_white_space (c : N) : bool :=
  ((9 <=? c) && (c <=? 13)             (* TAB, LF, VT, FF, CR *)
   || (c =? 32)                        (* SPACE *)
   || (c =? 160)                       (* NO-BREAK SPACE *)
   || (c =? 5760)                      (* OGHAM SPACE MARK *)
   || ((8192 <=? c) && (c <=? 8202))   (* EN QUAD .. HAIR SPACE *)
   || (c =? 8232) || (c =? 8233)       (* LINE / PARAGRAPH SEPARATOR *)
   || (c =? 8239)                      (* NARROW NO-BREAK SPACE *)
   || (c =? 8287)                      (* MEDIUM MATHEMATICAL SPACE *)
   || (c =? 12288)                     (* IDEOGRAPHIC SPACE *)
   || (c =? 65279))%N.                 (* ZERO WIDTH NO-BREAK SPACE *)

Fixpoint trimStart (s : jsstring) : jsstring :=
  match s with
  | [] => []
  | c :: rest => if is_white_space c then trimStart rest else s
  end.

Definition trimEnd (s : jsstring) : jsstring :=
  rev (trimStart (rev s)).

(** [String.prototype.trim]. *)
Definition trim (s : jsstring) : jsstring :=
  trimEnd (trimStart s).

(** A string made only of white space (the empty string included). *)
Definition whitespace_only (s : jsstring) : Prop :=
  Forall (fun c => is_white_space c = true) s.

(** ** Data model *)

(** [interface FormData]. *)
Record FormData := mkFormData {
  title : jsstring;
  description : jsstring;
}.

(** A [Date] object, by its time value. *)
Abbreviation Date := Z.

(** The props after the defaults of the parameter list (lines 36-45) have
    been applied; [None] is [null]. [submitLabel] and [onCancel] only reach
    the markup and are left out. The [onSubmit] prop is the callback
    parameter of [handleSubmit] below. *)
Record TaskFormProps := mkProps {
  initialTitle : jsstring;
  initialDescription : jsstring;
  initialCategory : option jsstring;
  initialPriority : option jsstring;
  initialDueDate : option jsstring;
}.

(** The [useState] cells of the component (lines 46-59). In
    [validationErrors] a key bound to [None] is a property whose value is
    [undefined]. *)
Record State := mkState {
  formData : FormData;
  category : option jsstring;
  priority : jsstring;
  dueDate : option Date;
  loading : bool;
  validationErrors : gmap string (option jsstring);
  error : jsstring;
}.

(** [obj[key]] used as a condition: an absent property, [undefined] and the
    empty string are falsy. *)
Definition property_truthy (v : option (option jsstring)) : bool :=
  match v with
  | Some (Some m) => truthy m
  | _ => false
  end.

(** The arguments of one call of the [onSubmit] prop. *)
Record CallArgs := mkCall {
  arg_title : jsstring;
  arg_description : jsstring;
  arg_category : option jsstring;
  arg_priority : jsstring;
  arg_dueDate : option Date;
}.

(** What the handlers do to the outside, in order. *)
Inductive Effect :=
| CallOnSubmit (args : CallArgs)
| ToastError (message : jsstring).

(** A thrown value (or rejection reason): an instance of [Error] with its
    [message], or any other value (a string, a plain object, ...), which may
    or may not have a [message] property of its own. *)
Inductive Thrown :=
| ErrorInstance (message : jsstring)
| NotAnError (message_property : option jsstring).

(** How the promise of [onSubmit] settles; a synchronous throw of the
    callback is caught by the same [try] and counts as a rejection. *)
Inductive Settlement :=
| Fulfilled
| Rejected (reason : Thrown).

Record World := mkWorld {
  component : State;
  effects : list Effect;
}.

(** ** The handler monad

    A handler runs on the world and either completes normally with a value
    or completes abruptly with a thrown value. *)

Inductive Completion (A : Type) :=
| Normal (a : A)
| Throw (v : Thrown).
Arguments Normal {A} a.
Arguments Throw {A} v.

Definition M (A : Type) : Type := World -> Completion A * World.

Definition ret {A} (a : A) : M A := fun w => (Normal a, w).

Definition bind {A B} (m : M A) (k : A -> M B) : M B :=
  fun w =>
    match m w with
    | (Normal a, w') => k a w'
    | (Throw v, w') => (Throw v, w')
    end.

Definition throw {A} (v : Thrown) : M A := fun w => (Throw v, w).

Declare Scope handler_scope.
Delimit Scope handler_scope with handler.
Notation "x <- m ;; k" := (bind m (fun x => k))
  (at level 100, m at next level, right associativity) : handler_scope.
Notation "m ;; k" := (bind m (fun _ => k))
  (at level 100, right associativity) : handler_scope.
Local Open Scope handler_scope.

(** [try { body } catch (err) { handler err } finally { cleanup }]: the
    handler runs on the world the body left behind; the cleanup runs on
    every path, and its own abrupt completion would replace the result. *)
Definition try_catch_finally {A} (body : M A) (handler : Thrown -> M A)
    (cleanup : M unit) : M A :=
  fun w =>
    let r := match body w with
             | (Normal a, w1) => (Normal a, w1)
             | (Throw v, w1) => handler v w1
             end in
    match cleanup (snd r) with
    | (Normal _, w2) => (fst r, w2)
    | (Throw v, w2) => (Throw v, w2)
    end.

(** Reading and writing the [useState] cells. Within one handler no cell is
    read after it has been written, so reading the current cell agrees with
    reading the value captured by the render closure. *)
Definition get : M State := fun w => (Normal (component w), w).

Definition modify (f : State -> State) : M unit :=
  fun w => (Normal tt, mkWorld (f (component w)) (effects w)).

Definition emit (e : Effect) : M unit :=
  fun w => (Normal tt, mkWorld (component w) (effects w ++ [e])).

(** The state with one cell replaced. *)
Definition with_formData (fd : FormData) (s : State) : State :=
  mkState fd (category s) (priority s) (dueDate s) (loading s)
          (validationErrors s) (error s).

Definition with_category (c : option jsstring) (s : State) : State :=
  mkState (formData s) c (priority s) (dueDate s) (loading s)
          (validationErrors s) (error s).

Definition with_priority (p : jsstring) (s : State) : State :=
  mkState (formData s) (category s) p (dueDate s) (loading s)
          (validationErrors s) (error s).

Definition with_dueDate (d : option Date) (s : State) : State :=
  mkState (formData s) (category s) (priority s) d (loading s)
          (validationErrors s) (error s).

Definition with_loading (b : bool) (s : State) : State :=
  mkState (formData s) (category s) (priority s) (dueDate s) b
          (validationErrors s) (error s).

Definition with_validationErrors (e : gmap string (option jsstring)) (s : State)
    : State :=
  mkState (formData s) (category s) (priority s) (dueDate s) (loading s)
          e (error s).

Definition with_error (m : jsstring) (s : State) : State :=
  mkState (formData s) (category s) (priority s) (dueDate s) (loading s)
          (validationErrors s) m.

(** The setters returned by [useState]; [setFormData] and
    [setValidationErrors] take the updater function of the source (a plain
    value is the constant updater). *)
Definition setFormData (f : FormData -> FormData) : M unit :=
  modify (fun s => with_formData (f (formData s)) s).

Definition setCategory (c : option jsstring) : M unit :=
  modify (with_category c).

Definition setPriority (p : jsstring) : M unit :=
  modify (with_priority p).

Definition setDueDate (d : option Date) : M unit :=
  modify (with_dueDate d).

Definition setLoading (b : bool) : M unit :=
  modify (with_loading b).

Definition setValidationErrors
    (f : gmap string (option jsstring) -> gmap string (option jsstring)) : M unit :=
  modify (fun s => with_validationErrors (f (validationErrors s)) s).

Definition setError (m : jsstring) : M unit :=
  modify (with_error m).

(** ** Construction (lines 46-59) *)

(** [initialPriority || 'medium']: [null] and the empty string fall back. *)
Definition priority_or_medium (p : option jsstring) : jsstring :=
  match p with
  | Some (c :: rest) => c :: rest
  | _ => lit "medium"
  end.

(** [initialDueDate ? new Date(initialDueDate) : null]; the parser of
    [Date] is a parameter. *)
Definition initial_dueDate (Date_parse : jsstring -> Date)
    (d : option jsstring) : option Date :=
  match d with
  | Some (c :: rest) => Some (Date_parse (c :: rest))
  | _ => None
  end.

Definition initial_state (Date_parse : jsstring -> Date) (p : TaskFormProps) : State :=
  {| formData := {| title := initialTitle p; description := initialDescription p |};
     category := initialCategory p;
     priority := priority_or_medium (initialPriority p);
     dueDate := initial_dueDate Date_parse (initialDueDate p);
     loading := false;
     validationErrors := ∅;
     error := [] |}.

(** ** validateForm (lines 61-73)

    The message texts are those of [TaskForm.tsx]; the other copy of the
    component in the repository has the same handlers and differs in these
    three texts and in the markup. *)

Definition msg_title_required : jsstring := lit "Task title is required".
Definition msg_title_too_long : jsstring := lit "Title must be under 200 characters".
Definition msg_description_too_long : jsstring :=
  lit "Description must be under 1000 characters".

(** The local object [errors] built by lines 62-70. *)
Definition validation_errors_of (fd : FormData) : gmap string (option jsstring) :=
  let errors : gmap string (option jsstring) := ∅ in
  let errors :=
    if negb (truthy (trim (title fd))) then
      <["title" := Some msg_title_required]> errors
    else if (200 <? length (title fd))%nat then
      <["title" := Some msg_title_too_long]> errors
    else errors in
  let errors :=
    if (1000 <? length (description fd))%nat then
      <["description" := Some msg_description_too_long]> errors
    else errors in
  errors.

Definition validateForm : M bool :=
  s <- get;;
  let errors := validation_errors_of (formData s) in
  setValidationErrors (fun _ => errors);;
  ret (bool_decide (size errors = 0)).

(** ** handleSubmit (lines 75-96) *)

(** The arguments of line 83, read from the cells. *)
Definition submit_args (s : State) : CallArgs :=
  {| arg_title := trim (title (formData s));
     arg_description := trim (description (formData s));
     arg_category := category s;
     arg_priority := priority s;
     arg_dueDate := dueDate s |}.

(** Lines 84-89: the reset of a form that was given neither an initial
    title nor an initial description. *)
Definition reset_if_create (p : TaskFormProps) : M unit :=
  if negb (truthy (initialTitle p)) && negb (truthy (initialDescription p)) then
    setFormData (fun _ => {| title := []; description := [] |});;
    setCategory None;;
    setPriority (lit "medium");;
    setDueDate None
  else ret tt.

(** Lines 90-92: the [catch] block. *)
Definition on_catch (err : Thrown) : M unit :=
  setError (match err with
            | ErrorInstance message => message
            | NotAnError _ => lit "Failed to save task"
            end);;
  emit (ToastError (lit "Failed to save task")).

(** Lines 76-83, up to the point where the handler is suspended on
    [await]: [None] when validation made it return at line 79, otherwise
    the arguments [onSubmit] has just been called with. *)
Definition handleSubmit_begin : M (option CallArgs) :=
  setError [];;
  ok <- validateForm;;
  if negb ok then ret None
  else
    setLoading true;;
    s <- get;;
    emit (CallOnSubmit (submit_args s));;
    ret (Some (submit_args s)).

(** Lines 83-95, from the settlement of the awaited promise on: the rest of
    the [try] block, the [catch] block and the [finally] block. *)
Definition handleSubmit_resume (p : TaskFormProps) (o : Settlement) : M unit :=
  try_catch_finally
    (match o with
     | Fulfilled => reset_if_create p
     | Rejected reason => throw reason
     end)
    on_catch
    (setLoading false).

(** The whole handler, run to completion against a callback that settles
    as [onSubmit] says. *)
Definition handleSubmit (p : TaskFormProps) (onSubmit : CallArgs -> Settlement)
    : M unit :=
  pending <- handleSubmit_begin;;
  match pending with
  | None => ret tt
  | Some args => handleSubmit_resume p (onSubmit args)
  end.

(** ** handleChange (lines 98-104) *)

(** [{ ...prev, [name]: value }] on the form data. The two inputs are named
    [title] and [description]; a property of any other name would be read
    by nothing in the component. *)
Definition with_property (name : string) (value : jsstring) (prev : FormData)
    : FormData :=
  if String.eqb name "title" then
    {| title := value; description := description prev |}
  else if String.eqb name "description" then
    {| title := title prev; description := value |}
  else prev.

(** The property names of [Object.prototype], which every error mapping
    inherits: it is built by an object literal (lines 58, 62, 102). *)
Definition object_prototype_keys : list string :=
  ["constructor"; "__defineGetter__"; "__defineSetter__"; "hasOwnProperty";
   "__lookupGetter__"; "__lookupSetter__"; "isPrototypeOf";
   "propertyIsEnumerable"; "toString"; "valueOf"; "__proto__";
   "toLocaleString"].

Definition inherited_property (name : string) : bool :=
  existsb (String.eqb name) object_prototype_keys.

(** [validationErrors[name]] used as a condition (line 101): an own
    property decides by its value; where there is none, the lookup goes to
    the prototype, whose properties are functions (and, for [__proto__],
    an object), all truthy. *)
Definition lookup_truthy (m : gmap string (option jsstring)) (name : string)
    : bool :=
  match m !! name with
  | Some v => property_truthy (Some v)
  | None => inherited_property name
  end.

Definition handleChange (name : string) (value : jsstring) : M unit :=
  setFormData (with_property name value);;
  s <- get;;
  if lookup_truthy (validationErrors s) name then
    setValidationErrors (fun prev => <[name := None]> prev)
  else ret tt.

(** ** The rendered controls (lines 106-311) *)

Record View := mkView {
  title_input_disabled : bool;
  description_input_disabled : bool;
  cancel_button_disabled : bool;
  submit_button_disabled : bool;
  title_error_shown : bool;
  description_error_shown : bool;
  error_alert_shown : bool;
}.

Definition render (s : State) : View :=
  {| title_input_disabled := loading s;
     description_input_disabled := loading s;
     cancel_button_disabled := loading s;
     submit_button_disabled := loading s;
     title_error_shown := property_truthy (validationErrors s !! "title");
     description_error_shown := property_truthy (validationErrors s !! "description");
     error_alert_shown := truthy (error s) |}.

(** ** Events *)

(** The handler invocations that can follow one another during the life of
    the mounted component. *)
Inductive Event :=
| Change (name : string) (value : jsstring)
| SelectCategory (c : option jsstring)
| SelectPriority (p : jsstring)
| SelectDueDate (d : option Date)
| Submit
| Settle (o : Settlement).

(** One handler invocation. No gating by the [disabled] attributes is
    applied here, and a settlement may come at any time: every run of the
    real component is among the runs of this machine. *)
Definition run_event (p : TaskFormProps) (ev : Event) (w : World) : World :=
  match ev with
  | Change name value => snd (handleChange name value w)
  | SelectCategory c => snd (setCategory c w)
  | SelectPriority pr => snd (setPriority pr w)
  | SelectDueDate d => snd (setDueDate d w)
  | Submit => snd (handleSubmit_begin w)
  | Settle o => snd (handleSubmit_resume p o w)
  end.

Definition mounted (Date_parse : jsstring -> Date) (p : TaskFormProps) : World :=
  mkWorld (initial_state Date_parse p) [].

Inductive reachable (Date_parse : jsstring -> Date) (p : TaskFormProps)
    : World -> Prop :=
| reachable_mounted : reachable Date_parse p (mounted Date_parse p)
| reachable_event (w : World) (ev : Event) :
    reachable Date_parse p w -> reachable Date_parse p (run_event p ev w).

(** A trimmed string: it neither starts nor ends with a white space code
    unit. *)
Definition no_outer_white_space (s : jsstring) : Prop :=
  (forall c rest, s = c :: rest -> is_white_space c = false)
  /\ (forall c init, s = init ++ [c] -> is_white_space c = false).

(** The contract of the [onSubmit] prop on its two text arguments: the
    title is trimmed, non-empty and of at most 200 code units; the
    description is trimmed and of at most 1000 code units. *)
Definition satisfies_contract (args : CallArgs) : Prop :=
  no_outer_white_space (arg_title args)
  /\ arg_title args <> []
  /\ length (arg_title args) <= 200
  /\ no_outer_white_space (arg_description args)
  /\ length (arg_description args) <= 1000.

(** ** Predicates and sample inputs used by the statements below *)

(** The draft passes (or fails) the validation of [validateForm]. *)
Definition passes_validation (w : World) : Prop :=
  fst (validateForm w) = Normal true.

Definition fails_validation (w : World) : Prop :=
  fst (validateForm w) = Normal false.

(** The error message the [catch] block records for a thrown value. *)
Definition message_of (err : Thrown) : jsstring :=
  match err with
  | ErrorInstance message => message
  | NotAnError _ => lit "Failed to save task"
  end.


(** Create mode: line 84 finds both initial strings falsy. *)
Definition create_mode (p : TaskFormProps) : bool :=
  negb (truthy (initialTitle p)) && negb (truthy (initialDescription p)).

(** A draft of which only the two text fields and the form error vary. *)
Definition draft_world (t d : jsstring) (err : jsstring) : World :=
  mkWorld (mkState (mkFormData t d) None (lit "medium") None false ∅ err) [].

(** Sample props: a form mounted without initial values (create mode), and
    one mounted on an existing task (edit mode). *)
Definition create_props : TaskFormProps :=
  {| initialTitle := []; initialDescription := []; initialCategory := None;
     initialPriority := None; initialDueDate := None |}.

Definition edit_props : TaskFormProps :=
  {| initialTitle := lit "Buy milk"; initialDescription := [];
     initialCategory := Some (lit "home"); initialPriority := Some (lit "high");
     initialDueDate := None |}.

(** A draft with every field filled in, and a stale form error. *)
Definition filled_world : World :=
  mkWorld (mkState (mkFormData (lit " Buy milk ") (lit "two litres"))
                   (Some (lit "home")) (lit "high") (Some 1700000000000%Z)
                   false ∅ (lit "Network down"))
          [].

(** A world after a failed validation: both fields carry an error. *)
Definition rejected_world : World :=
  snd (validateForm (draft_world [] (repeat 97%N 1001) [])).

(** A run: mount the empty form, type a padded title, click submit. *)
Definition typed_and_submitted : World :=
  run_event create_props Submit
    (run_event create_props (Change "title" (lit "  Buy milk "))
       (mounted (fun _ => 0%Z) create_props)).

(** ** The counters and the progress indicator (lines 141-143, 187-189, 292-309) *)

(** The two [n/200] and [n/1000] counters, and the four dots, each green
    when its value is truthy: a string when it is non-empty, [category] when
    it is a non-empty string, [dueDate] when it is a [Date] object. *)
Record Indicators := mkIndicators {
  title_counter : nat;
  description_counter : nat;
  title_dot : bool;
  priority_dot : bool;
  category_dot : bool;
  dueDate_dot : bool;
}.

Definition render_indicators (s : State) : Indicators :=
  {| title_counter := length (title (formData s));
     description_counter := length (description (formData s));
     title_dot := truthy (title (formData s));
     priority_dot := truthy (priority s);
     category_dot := match category s with
                     | Some c => truthy c
                     | None => false
                     end;
     dueDate_dot := match dueDate s with
                    | Some _ => true
                    | None => false
                    end |}.

(** ** The other copy of the component (src/unnamed/part_000, lines 383-395)

    Its [validateForm] has the same three tests and other message texts. *)

Definition msg_title_required_v2 : jsstring := lit "Title is required".
Definition msg_title_too_long_v2 : jsstring :=
  lit "Title must not exceed 200 characters".
Definition msg_description_too_long_v2 : jsstring :=
  lit "Description must not exceed 1000 characters".

Definition validation_errors_of_v2 (fd : FormData) : gmap string (option jsstring) :=
  let errors : gmap string (option jsstring) := ∅ in
  let errors :=
    if negb (truthy (trim (title fd))) then
      <["title" := Some msg_title_required_v2]> errors
    else if (200 <? length (title fd))%nat then
      <["title" := Some msg_title_too_long_v2]> errors
    else errors in
  let errors :=
    if (1000 <? length (description fd))%nat then
      <["description" := Some msg_description_too_long_v2]> errors
    else errors in
  errors.

(** ** The form as the user drives it

    The markup passes [disabled={loading}] to the two text inputs and to the
    submit button (lines 131, 177, 266) and nothing of the kind to the three
    selectors (lines 218, 223, 228). A disabled control dispatches no event.
    A session is the world together with the calls of [onSubmit] that have
    not settled yet. *)

Record Session := mkSession {
  world : World;
  pending : list CallArgs;
}.

Inductive UserEvent :=
| TypeTitle (value : jsstring)
| TypeDescription (value : jsstring)
| PickCategory (c : option jsstring)
| PickPriority (p : jsstring)
| PickDueDate (d : option Date)
| ClickSubmit
| Settled (o : Settlement).

Definition ui_step (p : TaskFormProps) (ev : UserEvent) (s : Session) : Session :=
  let w := world s in
  match ev with
  | TypeTitle value =>
      if title_input_disabled (render (component w)) then s
      else mkSession (snd (handleChange "title" value w)) (pending s)
  | TypeDescription value =>
      if description_input_disabled (render (component w)) then s
      else mkSession (snd (handleChange "description" value w)) (pending s)
  | PickCategory c => mkSession (snd (setCategory c w)) (pending s)
  | PickPriority pr => mkSession (snd (setPriority pr w)) (pending s)
  | PickDueDate d => mkSession (snd (setDueDate d w)) (pending s)
  | ClickSubmit =>
      if submit_button_disabled (render (component w)) then s
      else match handleSubmit_begin w with
           | (Normal (Some args), w') => mkSession w' (pending s ++ [args])
           | (_, w') => mkSession w' (pending s)
           end
  | Settled o =>
      match pending s with
      | [] => s
      | _ :: rest => mkSession (snd (handleSubmit_resume p o w)) rest
      end
  end.

Definition ui_run (p : TaskFormProps) (evs : list UserEvent) (s : Session) : Session :=
  fold_left (fun acc ev => ui_step p ev acc) evs s.

Definition ui_mounted (Date_parse : jsstring -> Date) (p : TaskFormProps) : Session :=
  mkSession (mounted Date_parse p) [].

(** The calls of [onSubmit] recorded in a trace. *)
Definition calls_of (es : list Effect) : list CallArgs :=
  omap (fun e => match e with
                 | CallOnSubmit args => Some args
                 | ToastError _ => None
                 end) es.

(** The error notifications recorded in a trace. *)
Definition notifications_of (es : list Effect) : list jsstring :=
  omap (fun e => match e with
                 | CallOnSubmit _ => None
                 | ToastError m => Some m
                 end) es.

(** An error mapping in which the [title] entry is [undefined] or one of
    the two title texts of [validateForm], the [description] entry is
    [undefined] or the description text, and any other key is a property
    name of [Object.prototype] bound to [undefined]. *)
Definition well_formed_errors (m : gmap string (option jsstring)) : Prop :=
  forall (k : string) (v : option jsstring),
    m !! k = Some v ->
    (k = "title"
     /\ (v = None \/ v = Some msg_title_required \/ v = Some msg_title_too_long))
    \/ (k = "description"
        /\ (v = None \/ v = Some msg_description_too_long))
    \/ (inherited_property k = true /\ v = None).

(** What holds of a session between two events. *)
Definition ui_invariant (s : Session) : Prop :=
  (loading (component (world s)) = true <-> pending s <> [])
  /\ length (pending s) <= 1
  /\ (forall a, In a (pending s) ->
        arg_title a = trim (title (formData (component (world s))))
        /\ arg_description a = trim (description (formData (component (world s)))))
  /\ length (notifications_of (effects (world s))) + length (pending s)
     <= length (calls_of (effects (world s))).

(** A run: mount the empty form, click submit (rejected), type a title,
    and let an edit arrive under the name [constructor]. *)
Definition edited_after_rejection : World :=
  run_event create_props (Change "constructor" (lit "x"))
    (run_event create_props (Change "title" (lit "Buy milk"))
       (run_event create_props Submit (mounted (fun _ => 0%Z) create_props))).

(** The events of the sample session below. *)
Definition sample_events : list UserEvent :=
  [TypeTitle (lit " Buy milk "); ClickSubmit; PickCategory (Some (lit "home"))].

(** A sample session: type a title, submit, pick a category while the call
    is pending. *)
Definition sample_session : Session :=
  ui_run create_props
    [TypeTitle (lit " Buy milk "); ClickSubmit; PickCategory (Some (lit "home"))]
    (ui_mounted (fun _ => 0%Z) create_props).

(** * Properties *)

(** ** Trimming *)

Section Trim.
Implicit Types (s u : jsstring) (c : N).

Lemma trimStart_length s : length (trimStart s) <= length s.
Proof.
  induction s as [|c s IH]; simpl; [lia|].
  destruct (is_white_space c); simpl; lia.
Qed.

Lemma trimStart_nil_iff s : trimStart s = [] <-> whitespace_only s.
Proof.
  unfold whitespace_only. induction s as [|c s IH]; simpl.
  - split; [constructor | reflexivity].
  - destruct (is_white_space c) eqn:Hc.
    + rewrite IH. split; [by constructor | by inversion 1].
    + split; [discriminate | inversion 1; congruence].
Qed.

Lemma whitespace_only_trimStart s :
  whitespace_only (trimStart s) <-> whitespace_only s.
Proof.
  unfold whitespace_only. induction s as [|c s IH]; simpl; [reflexivity|].
  destruct (is_white_space c) eqn:Hc; [|reflexivity].
  rewrite IH. split; [by constructor | by inversion 1].
Qed.

Lemma whitespace_only_rev s : whitespace_only (rev s) <-> whitespace_only s.
Proof.
  unfold whitespace_only. rewrite !List.Forall_forall.
  split; intros H c Hc; apply H; [by apply in_rev in Hc | by apply in_rev].
Qed.

Lemma trimEnd_length s : length (trimEnd s) <= length s.
Proof.
  unfold trimEnd. rewrite length_rev.
  etransitivity; [apply trimStart_length|]. by rewrite length_rev.
Qed.

Lemma trim_length s : length (trim s) <= length s.
Proof.
  unfold trim. etransitivity; [apply trimEnd_length | apply trimStart_length].
Qed.

Lemma trimEnd_nil_iff s : trimEnd s = [] <-> whitespace_only s.
Proof.
  unfold trimEnd. rewrite <- whitespace_only_rev, <- trimStart_nil_iff.
  split; intros H.
  - apply (f_equal (@rev N)) in H. by rewrite rev_involutive in H.
  - by rewrite H.
Qed.

(** The trimmed string is empty exactly for the white-space-only strings. *)
Lemma trim_nil_iff s : trim s = [] <-> whitespace_only s.
Proof. unfold trim. by rewrite trimEnd_nil_iff, whitespace_only_trimStart. Qed.

Lemma truthy_trim_false_iff s : truthy (trim s) = false <-> whitespace_only s.
Proof.
  rewrite <- trim_nil_iff. destruct (trim s); simpl; split; congruence.
Qed.

Lemma trimStart_idem s : trimStart (trimStart s) = trimStart s.
Proof.
  induction s as [|c s IH]; simpl; [reflexivity|].
  destruct (is_white_space c) eqn:Hc; [assumption|]. simpl. by rewrite Hc.
Qed.

Lemma trimStart_snoc s c :
  is_white_space c = false -> trimStart (s ++ [c]) = trimStart s ++ [c].
Proof.
  intros Hc. induction s as [|a s IH]; simpl.
  - by rewrite Hc.
  - destruct (is_white_space a); [assumption | reflexivity].
Qed.

Lemma trimEnd_cons c s :
  is_white_space c = false -> trimEnd (c :: s) = c :: trimEnd s.
Proof.
  intros Hc. unfold trimEnd. simpl.
  by rewrite trimStart_snoc, rev_app_distr.
Qed.

Lemma trimStart_fixed_head c s :
  trimStart (c :: s) = c :: s -> is_white_space c = false.
Proof.
  simpl. destruct (is_white_space c); [|reflexivity].
  intros H. pose proof (trimStart_length s) as Hl.
  rewrite H in Hl. simpl in Hl. lia.
Qed.

Lemma trimStart_trimEnd u : trimStart u = u -> trimStart (trimEnd u) = trimEnd u.
Proof.
  destruct u as [|c u]; [reflexivity|]. intros H.
  apply trimStart_fixed_head in H.
  rewrite (trimEnd_cons _ _ H). simpl. by rewrite H.
Qed.

Lemma trimEnd_idem s : trimEnd (trimEnd s) = trimEnd s.
Proof. unfold trimEnd. by rewrite rev_involutive, trimStart_idem. Qed.

(** Trimming again changes nothing. *)
Lemma trim_idem s : trim (trim s) = trim s.
Proof.
  unfold trim.
  rewrite (trimStart_trimEnd (trimStart s)) by apply trimStart_idem.
  apply trimEnd_idem.
Qed.

Lemma trimStart_head (s : jsstring) (c : N) (rest : jsstring) :
  trimStart s = c :: rest -> is_white_space c = false.
Proof.
  intros H. apply (trimStart_fixed_head c rest).
  by rewrite <- H, trimStart_idem.
Qed.

(** What [trim] returns neither starts nor ends with white space. *)
Lemma trim_no_outer_white_space s : no_outer_white_space (trim s).
Proof.
  split.
  - intros c rest H. apply (trimStart_head (trim s) c rest).
    rewrite <- H. unfold trim. apply trimStart_trimEnd, trimStart_idem.
  - intros c init H. apply (trimStart_head (rev (trimStart s)) c (rev init)).
    apply (f_equal (@rev N)) in H. unfold trim, trimEnd in H.
    by rewrite rev_involutive, rev_app_distr in H.
Qed.

Lemma whitespace_only_repeat c n :
  is_white_space c = true -> whitespace_only (repeat c n).
Proof.
  intros Hc. unfold whitespace_only.
  induction n as [|n IH]; simpl; by constructor.
Qed.
End Trim.

Example is_white_space_samples :
  map is_white_space [9; 10; 11; 12; 13; 32; 160; 8232; 65279]%N
  = repeat true 9
  /\ map is_white_space [0; 8; 14; 65; 133; 8203; 8288]%N = repeat false 7.
Proof. split; reflexivity. Qed.

Example trim_sample : trim (lit "  Buy  milk ") = lit "Buy  milk".
Proof. reflexivity. Qed.

(** ** validateForm *)

Section Validation.
Implicit Types (fd : FormData) (w : World).

(** The three checks of lines 63, 65 and 68, as the source writes them. *)
Lemma validation_errors_of_cases fd :
  validation_errors_of fd =
    (if (1000 <? length (description fd))%nat
     then <["description" := Some msg_description_too_long]> else id)
      (if negb (truthy (trim (title fd)))
       then {["title" := Some msg_title_required]}
       else if (200 <? length (title fd))%nat
            then {["title" := Some msg_title_too_long]}
            else ∅).
Proof.
  unfold validation_errors_of.
  destruct (negb (truthy (trim (title fd)))), (200 <? length (title fd))%nat,
    (1000 <? length (description fd))%nat; by rewrite ?insert_empty.
Qed.

Lemma validation_errors_title_blank fd :
  whitespace_only (title fd) ->
  validation_errors_of fd !! "title" = Some (Some msg_title_required).
Proof.
  intros Hb. apply truthy_trim_false_iff in Hb.
  rewrite validation_errors_of_cases, Hb. simpl.
  destruct (1000 <? length (description fd))%nat; by simplify_map_eq.
Qed.

Lemma validation_errors_title_long fd :
  ~ whitespace_only (title fd) -> 200 < length (title fd) ->
  validation_errors_of fd !! "title" = Some (Some msg_title_too_long).
Proof.
  intros Hb Hl. rewrite <- truthy_trim_false_iff in Hb.
  apply not_false_is_true in Hb. apply Nat.ltb_lt in Hl.
  rewrite validation_errors_of_cases, Hb, Hl. simpl.
  destruct (1000 <? length (description fd))%nat; by simplify_map_eq.
Qed.

Lemma validation_errors_title_ok fd :
  ~ whitespace_only (title fd) -> length (title fd) <= 200 ->
  validation_errors_of fd !! "title" = None.
Proof.
  intros Hb Hl. rewrite <- truthy_trim_false_iff in Hb.
  apply not_false_is_true in Hb. apply Nat.ltb_ge in Hl.
  rewrite validation_errors_of_cases, Hb, Hl. simpl.
  destruct (1000 <? length (description fd))%nat; by simplify_map_eq.
Qed.

Lemma validation_errors_description_long fd :
  1000 < length (description fd) ->
  validation_errors_of fd !! "description" = Some (Some msg_description_too_long).
Proof.
  intros Hl. apply Nat.ltb_lt in Hl.
  rewrite validation_errors_of_cases, Hl. by simplify_map_eq.
Qed.

Lemma validation_errors_description_ok fd :
  length (description fd) <= 1000 ->
  validation_errors_of fd !! "description" = None.
Proof.
  intros Hl. apply Nat.ltb_ge in Hl.
  rewrite validation_errors_of_cases, Hl. simpl.
  destruct (negb (truthy (trim (title fd)))), (200 <? length (title fd))%nat; by simplify_map_eq.
Qed.

Lemma validation_errors_other_keys fd (k : string) :
  k <> "title" -> k <> "description" -> validation_errors_of fd !! k = None.
Proof.
  intros Ht Hd. rewrite validation_errors_of_cases.
  destruct (negb (truthy (trim (title fd)))), (200 <? length (title fd))%nat,
    (1000 <? length (description fd))%nat; by simplify_map_eq.
Qed.

(** [Object.keys(errors).length === 0] holds exactly when the three rules
    hold. *)
Lemma validation_errors_size_0 fd :
  size (validation_errors_of fd) = 0 <->
  trim (title fd) <> [] /\ length (title fd) <= 200
  /\ length (description fd) <= 1000.
Proof.
  rewrite map_size_empty_iff. split.
  - intros HE.
    assert (Ht : validation_errors_of fd !! "title" = None) by by rewrite HE.
    assert (Hd : validation_errors_of fd !! "description" = None) by by rewrite HE.
    destruct (decide (trim (title fd) = [])) as [Hb|Hb].
    { apply trim_nil_iff, validation_errors_title_blank in Hb. congruence. }
    destruct (decide (200 < length (title fd))) as [Hl|Hl].
    { rewrite trim_nil_iff in Hb.
      pose proof (validation_errors_title_long fd Hb Hl). congruence. }
    destruct (decide (1000 < length (description fd))) as [Hl'|Hl'].
    { pose proof (validation_errors_description_long fd Hl'). congruence. }
    repeat split; [assumption | lia | lia].
  - intros (Hb & Hl & Hl'). rewrite trim_nil_iff in Hb. apply map_eq. intros k.
    rewrite lookup_empty.
    destruct (decide (k = "title")) as [->|Ht];
      [by apply validation_errors_title_ok|].
    destruct (decide (k = "description")) as [->|Hd];
      [by apply validation_errors_description_ok|].
    by apply validation_errors_other_keys.
Qed.

(** What one run of [validateForm] returns and leaves behind. *)
Lemma validateForm_run w :
  validateForm w =
    (Normal (bool_decide (size (validation_errors_of (formData (component w))) = 0)),
     mkWorld (with_validationErrors (validation_errors_of (formData (component w)))
                                    (component w))
             (effects w)).
Proof. reflexivity. Qed.
End Validation.

(** C1, refuted as stated: the claim promises the length-specific title
    error for every title of 201 code units or more. A title of 201 spaces
    is caught by the first branch (line 63) and gets the required-title
    message; the [else if] of line 65 is never reached. *)
Lemma validateForm_long_blank_title :
  ~ (forall w : World,
       201 <= length (title (formData (component w))) ->
       validationErrors (component (snd (validateForm w))) !! "title"
       = Some (Some msg_title_too_long)).
Proof.
  intros H.
  specialize (H (draft_world (repeat 32%N 201) [] [])).
  assert (Hlen : 201 <= length (title (formData (component
                  (draft_world (repeat 32%N 201) [] []))))).
  { unfold draft_world. cbn [component formData title].
    rewrite repeat_length. lia. }
  specialize (H Hlen). vm_compute in H. discriminate H.
Qed.

(** C1, amended: [validateForm] returns [true] exactly when the trimmed
    title is non-empty, the title has at most 200 code units and the
    description at most 1000. A white-space-only title of any length gets the
    required-title error; a title that is not white-space-only and longer
    than 200 gets the length error; a description longer than 1000 gets the
    description error; no other entry is recorded. The recorded mapping
    replaces the previous one, and nothing else in the world changes. *)
Theorem validateForm_spec (w : World) :
  let fd := formData (component w) in
  exists (b : bool) (E : gmap string (option jsstring)),
    validateForm w
    = (Normal b, mkWorld (with_validationErrors E (component w)) (effects w))
    /\ (b = true <->
        trim (title fd) <> [] /\ length (title fd) <= 200
        /\ length (description fd) <= 1000)
    /\ (whitespace_only (title fd) ->
        b = false /\ E !! "title" = Some (Some msg_title_required))
    /\ (~ whitespace_only (title fd) -> 201 <= length (title fd) ->
        b = false /\ E !! "title" = Some (Some msg_title_too_long))
    /\ (~ whitespace_only (title fd) -> length (title fd) <= 200 ->
        E !! "title" = None)
    /\ (1001 <= length (description fd) ->
        b = false /\ E !! "description" = Some (Some msg_description_too_long))
    /\ (length (description fd) <= 1000 -> E !! "description" = None)
    /\ (forall k : string, k <> "title" -> k <> "description" -> E !! k = None).
Proof.
  intros fd.
  exists (bool_decide (size (validation_errors_of fd) = 0)), (validation_errors_of fd).
  assert (Hfalse : forall k v, validation_errors_of fd !! k = Some v ->
            bool_decide (size (validation_errors_of fd) = 0) = false).
  { intros k v Hk. apply bool_decide_eq_false. rewrite map_size_empty_iff.
    intros HE. rewrite HE, lookup_empty in Hk. discriminate. }
  split; [apply validateForm_run|].
  split; [rewrite bool_decide_eq_true; apply validation_errors_size_0|].
  split.
  { intros Hb. pose proof (validation_errors_title_blank fd Hb) as Ht. eauto. }
  split.
  { intros Hb Hl. pose proof (validation_errors_title_long fd Hb Hl) as Ht. eauto. }
  split; [apply validation_errors_title_ok|].
  split.
  { intros Hl. pose proof (validation_errors_description_long fd Hl) as Hd. eauto. }
  split; [apply validation_errors_description_ok|].
  apply validation_errors_other_keys.
Qed.

(** The boundary cases named by the specification. *)
Example validateForm_title_200 :
  fst (validateForm (draft_world (repeat 97%N 200) [] [])) = Normal true.
Proof. vm_compute. reflexivity. Qed.

Example validateForm_title_201 :
  fst (validateForm (draft_world (repeat 97%N 201) [] [])) = Normal false.
Proof. vm_compute. reflexivity. Qed.

Example validateForm_description_1000 :
  fst (validateForm (draft_world (lit "a") (repeat 97%N 1000) [])) = Normal true.
Proof. vm_compute. reflexivity. Qed.

Example validateForm_description_1001 :
  fst (validateForm (draft_world (lit "a") (repeat 97%N 1001) [])) = Normal false.
Proof. vm_compute. reflexivity. Qed.

(** ** handleSubmit *)

Section Submit.
Variable p : TaskFormProps.
Variable onSubmit : CallArgs -> Settlement.
Implicit Types (w : World) (o : Settlement).

Lemma passes_validation_size w :
  passes_validation w <->
  size (validation_errors_of (formData (component w))) = 0.
Proof.
  unfold passes_validation. rewrite validateForm_run. simpl. split.
  - intros [= H]. by apply bool_decide_eq_true in H.
  - intros H. f_equal. by apply bool_decide_eq_true.
Qed.

Lemma fails_validation_size w :
  fails_validation w <->
  size (validation_errors_of (formData (component w))) <> 0.
Proof.
  unfold fails_validation. rewrite validateForm_run. simpl. split.
  - intros [= H]. by apply bool_decide_eq_false in H.
  - intros H. f_equal. by apply bool_decide_eq_false.
Qed.

(** Validation looks at the form data only. *)
Lemma passes_validation_formData w1 w2 :
  formData (component w1) = formData (component w2) ->
  passes_validation w1 -> passes_validation w2.
Proof. rewrite !passes_validation_size. by intros ->. Qed.

(** Early return of line 79. *)
Lemma handleSubmit_begin_invalid w :
  fails_validation w ->
  handleSubmit_begin w =
    (Normal None,
     mkWorld (with_validationErrors (validation_errors_of (formData (component w)))
                (with_error [] (component w)))
             (effects w)).
Proof.
  intros Hf%fails_validation_size.
  apply (bool_decide_eq_false_2 _) in Hf.
  unfold handleSubmit_begin, bind, setError, modify, validateForm, get,
    setValidationErrors, ret. simpl. by rewrite Hf.
Qed.

(** Suspension at the [await] of line 83. *)
Lemma handleSubmit_begin_valid w :
  passes_validation w ->
  handleSubmit_begin w =
    (Normal (Some (submit_args (component w))),
     mkWorld (with_loading true
                (with_validationErrors (validation_errors_of (formData (component w)))
                   (with_error [] (component w))))
             (effects w ++ [CallOnSubmit (submit_args (component w))])).
Proof.
  intros Hf%passes_validation_size.
  apply (bool_decide_eq_true_2 _) in Hf.
  unfold handleSubmit_begin, bind, setError, modify, validateForm, get,
    setValidationErrors, setLoading, emit, ret. simpl. by rewrite Hf.
Qed.

Lemma handleSubmit_resume_fulfilled_create w :
  create_mode p = true ->
  handleSubmit_resume p Fulfilled w =
    (Normal tt,
     mkWorld (mkState {| title := []; description := [] |} None (lit "medium") None
                      false (validationErrors (component w)) (error (component w)))
             (effects w)).
Proof.
  unfold create_mode. intros Hc.
  unfold handleSubmit_resume, try_catch_finally, reset_if_create. by rewrite Hc.
Qed.

Lemma handleSubmit_resume_fulfilled_edit w :
  create_mode p = false ->
  handleSubmit_resume p Fulfilled w =
    (Normal tt, mkWorld (with_loading false (component w)) (effects w)).
Proof.
  unfold create_mode. intros Hc.
  unfold handleSubmit_resume, try_catch_finally, reset_if_create. by rewrite Hc.
Qed.

Lemma handleSubmit_resume_rejected reason w :
  handleSubmit_resume p (Rejected reason) w =
    (Normal tt,
     mkWorld (with_loading false (with_error (message_of reason) (component w)))
             (effects w ++ [ToastError (lit "Failed to save task")])).
Proof. by destruct reason. Qed.

(** Whatever the settlement, the resumed handler completes normally and
    leaves [loading] false. *)
Lemma handleSubmit_resume_idle o w :
  exists w', handleSubmit_resume p o w = (Normal tt, w')
             /\ loading (component w') = false.
Proof.
  destruct o as [|reason].
  - destruct (create_mode p) eqn:Hc.
    + rewrite handleSubmit_resume_fulfilled_create by done. eauto.
    + rewrite handleSubmit_resume_fulfilled_edit by done. eauto.
  - rewrite handleSubmit_resume_rejected. eauto.
Qed.

Lemma handleSubmit_invalid w :
  fails_validation w ->
  handleSubmit p onSubmit w =
    (Normal tt,
     mkWorld (with_validationErrors (validation_errors_of (formData (component w)))
                (with_error [] (component w)))
             (effects w)).
Proof.
  intros Hf. unfold handleSubmit, bind.
  by rewrite handleSubmit_begin_invalid.
Qed.

Lemma handleSubmit_valid w :
  passes_validation w ->
  handleSubmit p onSubmit w =
    handleSubmit_resume p (onSubmit (submit_args (component w)))
      (snd (handleSubmit_begin w)).
Proof.
  intros Hv. unfold handleSubmit, bind.
  by rewrite handleSubmit_begin_valid.
Qed.
End Submit.

(** C2, refuted as stated: the claim says that on a failed validation
    nothing but the validation errors changes. Line 77 runs before the
    validation, so a form error left by an earlier failed submission is
    erased as well. *)
Lemma handleSubmit_invalid_changes_error :
  ~ (forall (p : TaskFormProps) (onSubmit : CallArgs -> Settlement) (w : World),
       fails_validation w ->
       component (snd (handleSubmit p onSubmit w))
       = with_validationErrors
           (validationErrors (component (snd (validateForm w)))) (component w)).
Proof.
  intros H.
  specialize (H create_props (fun _ => Fulfilled)
                (draft_world [] [] (lit "Network down"))).
  assert (Hf : fails_validation (draft_world [] [] (lit "Network down")))
    by (vm_compute; reflexivity).
  apply H, (f_equal error) in Hf. vm_compute in Hf. discriminate Hf.
Qed.

(** C2, amended: a submit on a draft that fails validation returns at
    line 79: the callback is not invoked and no notification is emitted (the
    effect trace is unchanged), [loading] is not touched, and the component
    state changes in exactly two cells: the validation errors are replaced
    by the ones just computed, and the form error is cleared. *)
Theorem handleSubmit_invalid_aborts
    (p : TaskFormProps) (onSubmit : CallArgs -> Settlement) (w : World) :
  fails_validation w ->
  exists w',
    handleSubmit p onSubmit w = (Normal tt, w')
    /\ handleSubmit_begin w = (Normal None, w')
    /\ effects w' = effects w
    /\ loading (component w') = loading (component w)
    /\ component w'
       = with_validationErrors
           (validationErrors (component (snd (validateForm w))))
           (with_error [] (component w)).
Proof.
  intros Hf. eexists. split; [by apply handleSubmit_invalid|].
  split; [by apply handleSubmit_begin_invalid|]. done.
Qed.

Lemma handleSubmit_invalid_aborts_witness :
  exists w',
    handleSubmit create_props (fun _ => Fulfilled)
      (draft_world (lit "   ") [] (lit "Network down")) = (Normal tt, w')
    /\ handleSubmit_begin (draft_world (lit "   ") [] (lit "Network down"))
       = (Normal None, w')
    /\ effects w' = []
    /\ loading (component w') = false
    /\ component w'
       = with_validationErrors
           (validationErrors (component (snd (validateForm
              (draft_world (lit "   ") [] (lit "Network down"))))))
           (with_error [] (component (draft_world (lit "   ") [] (lit "Network down")))).
Proof.
  apply (handleSubmit_invalid_aborts create_props (fun _ => Fulfilled)
           (draft_world (lit "   ") [] (lit "Network down"))).
  vm_compute. reflexivity.
Defined.

(** C3: a submit that passes validation completes normally (nothing is
    thrown out of the handler) with [loading] false, however the callback
    settles: fulfilled, rejected with an [Error], or rejected with anything
    else. The same holds for the resumed handler from any world, so also
    when other events ran while the callback was pending. *)
Theorem handleSubmit_returns_to_idle
    (p : TaskFormProps) (onSubmit : CallArgs -> Settlement) (w : World) :
  passes_validation w ->
  (exists w', handleSubmit p onSubmit w = (Normal tt, w')
              /\ loading (component w') = false)
  /\ (forall (o : Settlement) (w1 : World),
        exists w', handleSubmit_resume p o w1 = (Normal tt, w')
                   /\ loading (component w') = false).
Proof.
  intros Hv. split.
  - rewrite handleSubmit_valid by done. apply handleSubmit_resume_idle.
  - apply handleSubmit_resume_idle.
Qed.

Lemma handleSubmit_returns_to_idle_witness :
  (exists w', handleSubmit edit_props (fun _ => Rejected (NotAnError None)) filled_world
              = (Normal tt, w')
              /\ loading (component w') = false)
  /\ (forall (o : Settlement) (w1 : World),
        exists w', handleSubmit_resume edit_props o w1 = (Normal tt, w')
                   /\ loading (component w') = false).
Proof.
  apply (handleSubmit_returns_to_idle edit_props (fun _ => Rejected (NotAnError None))
           filled_world).
  vm_compute. reflexivity.
Defined.




(** A rejection with a value that is not an [Error] records the fallback
    text even when the value has a [message] property; an [Error] with an
    empty message records the empty string, so that no alert is shown. *)
Example handleSubmit_failure_empty_message :
  let w' := snd (handleSubmit edit_props (fun _ => Rejected (ErrorInstance []))
                   filled_world) in
  error (component w') = [] /\ error_alert_shown (render (component w')) = false.
Proof. vm_compute. split; reflexivity. Qed.

Example handleSubmit_failure_plain_object :
  error (component (snd (handleSubmit edit_props
           (fun _ => Rejected (NotAnError (Some (lit "Quota exceeded"))))
           filled_world)))
  = lit "Failed to save task".
Proof. vm_compute. reflexivity. Qed.





(** C10: every submit attempt clears the form error before it validates:
    [handleSubmit] is the validation and what follows it, run on the world
    in which [error] has been set to the empty string. Hence the error is
    empty when the handler returns at line 79 or is suspended at line 83,
    and a submit that fails validation ends with an empty form error
    whatever message was recorded before. *)
Theorem handleSubmit_clears_error
    (p : TaskFormProps) (onSubmit : CallArgs -> Settlement) (w : World) :
  let cleared := mkWorld (with_error [] (component w)) (effects w) in
  setError [] w = (Normal tt, cleared)
  /\ handleSubmit_begin w = handleSubmit_begin cleared
  /\ handleSubmit p onSubmit w = handleSubmit p onSubmit cleared
  /\ validationErrors (component (snd (handleSubmit_begin w)))
     = validationErrors (component (snd (validateForm cleared)))
  /\ error (component (snd (handleSubmit_begin w))) = []
  /\ (fails_validation w ->
      error (component (snd (handleSubmit p onSubmit w))) = []).
Proof.
  intros cleared. split; [reflexivity|]. split; [reflexivity|].
  split; [reflexivity|].
  assert (Hb : validationErrors (component (snd (handleSubmit_begin w)))
               = validationErrors (component (snd (validateForm cleared)))
               /\ error (component (snd (handleSubmit_begin w))) = []).
  { destruct (decide (size (validation_errors_of (formData (component w))) = 0))
      as [Hv|Hf].
    - apply passes_validation_size in Hv. by rewrite handleSubmit_begin_valid.
    - apply fails_validation_size in Hf. by rewrite handleSubmit_begin_invalid. }
  destruct Hb as [Hb1 Hb2]. split; [done|]. split; [done|].
  intros Hf. by rewrite handleSubmit_invalid.
Qed.

Example handleSubmit_clears_error_invalid :
  error (component (snd (handleSubmit create_props (fun _ => Fulfilled)
                           (draft_world [] [] (lit "Network down"))))) = [].
Proof. vm_compute. reflexivity. Qed.

(** ** handleChange *)

(** One run of [handleChange]. *)
Lemma handleChange_run (name : string) (value : jsstring) (w : World) :
  handleChange name value w =
    (Normal tt,
     mkWorld
       (with_validationErrors
          (if lookup_truthy (validationErrors (component w)) name
           then <[name := None]> (validationErrors (component w))
           else validationErrors (component w))
          (with_formData (with_property name value (formData (component w)))
             (component w)))
       (effects w)).
Proof.
  unfold handleChange, bind, setFormData, setValidationErrors, modify, get, ret.
  simpl. by destruct (lookup_truthy (validationErrors (component w)) name).
Qed.

(** An own entry with a message makes the lookup of line 101 truthy. *)
Lemma lookup_truthy_own (m : gmap string (option jsstring)) (name : string) :
  property_truthy (m !! name) = true -> lookup_truthy m name = true.
Proof. unfold lookup_truthy. by destruct (m !! name). Qed.

(** The two field names are not property names of the prototype: for them
    the lookup is decided by the own entry alone. *)
Lemma lookup_truthy_field (m : gmap string (option jsstring)) (name : string) :
  name = "title" \/ name = "description" ->
  lookup_truthy m name = property_truthy (m !! name).
Proof. unfold lookup_truthy. intros [-> | ->]; by destruct (m !! _). Qed.

Lemma handleChange_run_error (name : string) (value : jsstring) (w : World) :
  property_truthy (validationErrors (component w) !! name) = true ->
  handleChange name value w =
    (Normal tt,
     mkWorld (with_validationErrors (<[name := None]> (validationErrors (component w)))
                (with_formData (with_property name value (formData (component w)))
                   (component w)))
             (effects w)).
Proof.
  intros He. rewrite handleChange_run. by rewrite lookup_truthy_own.
Qed.

(** C8: editing a field that has a recorded error sets exactly that
    field's entry to [undefined] (so it is no longer shown), whatever the
    new value is: the value is not validated. Every other entry of the
    error mapping is kept, the new value replaces the field in the draft
    while the other field is kept, and the remaining cells and the effect
    trace are unchanged. *)
Theorem handleChange_clears_field_error
    (name : string) (value : jsstring) (w : World) :
  property_truthy (validationErrors (component w) !! name) = true ->
  exists w',
    handleChange name value w = (Normal tt, w')
    /\ validationErrors (component w') !! name = Some None
    /\ property_truthy (validationErrors (component w') !! name) = false
    /\ (forall k : string, k <> name ->
          validationErrors (component w') !! k = validationErrors (component w) !! k)
    /\ (name = "title" ->
          title (formData (component w')) = value
          /\ description (formData (component w'))
             = description (formData (component w)))
    /\ (name = "description" ->
          description (formData (component w')) = value
          /\ title (formData (component w')) = title (formData (component w)))
    /\ category (component w') = category (component w)
    /\ priority (component w') = priority (component w)
    /\ dueDate (component w') = dueDate (component w)
    /\ loading (component w') = loading (component w)
    /\ error (component w') = error (component w)
    /\ effects w' = effects w.
Proof.
  intros He. eexists. split; [by apply handleChange_run_error|]. simpl.
  split; [by rewrite lookup_insert_eq|].
  split; [by rewrite lookup_insert_eq|].
  split; [intros k Hk; by rewrite lookup_insert_ne|].
  split; [by intros ->|]. split; [by intros ->|]. done.
Qed.

Lemma handleChange_clears_field_error_witness :
  exists w',
    handleChange "title" (lit "  ") rejected_world = (Normal tt, w')
    /\ validationErrors (component w') !! "title" = Some None
    /\ property_truthy (validationErrors (component w') !! "title") = false
    /\ (forall k : string, k <> "title" ->
          validationErrors (component w') !! k
          = validationErrors (component rejected_world) !! k)
    /\ ("title" = "title" ->
          title (formData (component w')) = lit "  "
          /\ description (formData (component w'))
             = description (formData (component rejected_world)))
    /\ ("title" = "description" ->
          description (formData (component w')) = lit "  "
          /\ title (formData (component w'))
             = title (formData (component rejected_world)))
    /\ category (component w') = category (component rejected_world)
    /\ priority (component w') = priority (component rejected_world)
    /\ dueDate (component w') = dueDate (component rejected_world)
    /\ loading (component w') = loading (component rejected_world)
    /\ error (component w') = error (component rejected_world)
    /\ effects w' = effects rejected_world.
Proof.
  apply (handleChange_clears_field_error "title" (lit "  ") rejected_world).
  vm_compute. reflexivity.
Defined.

(** The description error of [rejected_world] survives the edit of the
    title, and the blank title typed in is not flagged before the next
    submit. *)
Example handleChange_keeps_other_error :
  let w' := snd (handleChange "title" (lit "  ") rejected_world) in
  validationErrors (component w') !! "description"
  = Some (Some msg_description_too_long)
  /\ validationErrors (component w') !! "title" = Some None.
Proof. vm_compute. split; reflexivity. Qed.

(** ** The handler and the loading flag *)

(** The handler does not look at [loading]: what keeps a second submit out
    while a call is pending is the [disabled] attribute of the submit
    button (see the sessions below). Invoked directly on a valid draft, the
    handler calls [onSubmit] whatever [loading] is. *)
Lemma handleSubmit_begin_ignores_loading (w : World) :
  passes_validation w ->
  effects (snd (handleSubmit_begin w))
  = effects w ++ [CallOnSubmit (submit_args (component w))].
Proof. intros Hv. by rewrite handleSubmit_begin_valid. Qed.

Lemma handleSubmit_begin_sets_loading (w : World) :
  passes_validation w ->
  loading (component (snd (handleSubmit_begin w))) = true.
Proof. intros Hv. by rewrite handleSubmit_begin_valid. Qed.

(** ** The callback contract *)

Lemma submit_args_contract (w : World) :
  passes_validation w -> satisfies_contract (submit_args (component w)).
Proof.
  intros Hv%passes_validation_size%validation_errors_size_0.
  destruct Hv as (Hb & Hl & Hl'). unfold satisfies_contract. simpl.
  pose proof (trim_length (title (formData (component w)))).
  pose proof (trim_length (description (formData (component w)))).
  split; [apply trim_no_outer_white_space|]. split; [assumption|].
  split; [lia|]. split; [apply trim_no_outer_white_space | lia].
Qed.

(** The calls that one handler invocation adds to the trace. *)
Lemma run_event_effects (p : TaskFormProps) (ev : Event) (w : World) :
  effects (run_event p ev w) = effects w
  \/ (exists m, effects (run_event p ev w) = effects w ++ [ToastError m])
  \/ (passes_validation w /\
      effects (run_event p ev w)
      = effects w ++ [CallOnSubmit (submit_args (component w))]).
Proof.
  destruct ev as [name value|c|pr|d| |o]; cbn [run_event];
    [ | by left | by left | by left | | ].
  - rewrite handleChange_run. by left.
  - destruct (decide (size (validation_errors_of (formData (component w))) = 0))
      as [Hv|Hf].
    + apply passes_validation_size in Hv. right; right. split; [done|].
      by rewrite handleSubmit_begin_valid.
    + apply fails_validation_size in Hf. left.
      by rewrite handleSubmit_begin_invalid.
  - destruct o as [|reason].
    + left. destruct (create_mode p) eqn:Hc.
      * by rewrite handleSubmit_resume_fulfilled_create.
      * by rewrite handleSubmit_resume_fulfilled_edit.
    + right; left. rewrite handleSubmit_resume_rejected. eauto.
Qed.

(** C9: in every world the component can reach from its mount, by any
    sequence of handler invocations and settlements, each recorded call of
    [onSubmit] carries a title that is trimmed, non-empty and of at most 200
    code units, and a description that is trimmed and of at most 1000 code
    units. *)
Theorem onSubmit_calls_satisfy_contract
    (Date_parse : jsstring -> Date) (p : TaskFormProps) (w : World)
    (args : CallArgs) :
  reachable Date_parse p w ->
  In (CallOnSubmit args) (effects w) ->
  satisfies_contract args.
Proof.
  intros Hr. revert args. induction Hr as [|w ev Hr IH]; intros args Hin.
  - destruct Hin.
  - destruct (run_event_effects p ev w) as [He|[[m He]|[Hv He]]];
      rewrite He in Hin.
    + by apply IH.
    + apply in_app_or in Hin as [Hin|[Hin|[]]]; [by apply IH | discriminate].
    + apply in_app_or in Hin as [Hin|[Hin|[]]]; [by apply IH|].
      injection Hin as <-. by apply submit_args_contract.
Qed.

Lemma onSubmit_calls_satisfy_contract_witness :
  satisfies_contract
    {| arg_title := lit "Buy milk"; arg_description := [];
       arg_category := None; arg_priority := lit "medium"; arg_dueDate := None |}.
Proof.
  apply (onSubmit_calls_satisfy_contract (fun _ => 0%Z) create_props
           typed_and_submitted).
  - unfold typed_and_submitted. do 2 apply reachable_event. apply reachable_mounted.
  - vm_compute. left. reflexivity.
Defined.

(** * Further properties of the component *)

(** ** What trimming removes *)

Lemma trimStart_decompose (s : jsstring) :
  exists a, s = a ++ trimStart s /\ whitespace_only a.
Proof.
  induction s as [|c s (a & Ha & Hws)]; simpl.
  - exists []. split; [reflexivity | constructor].
  - destruct (is_white_space c) eqn:Hc.
    + exists (c :: a). split; [simpl; congruence | by constructor].
    + exists []. split; [reflexivity | constructor].
Qed.

Lemma trimEnd_decompose (s : jsstring) :
  exists b, s = trimEnd s ++ b /\ whitespace_only b.
Proof.
  destruct (trimStart_decompose (rev s)) as (a & Ha & Hws).
  exists (rev a). split; [|by apply whitespace_only_rev].
  unfold trimEnd. by rewrite <- rev_app_distr, <- Ha, rev_involutive.
Qed.

(** X1. [trim] removes white space at the two ends and nothing else: the
    string is a white-space prefix, the trimmed string and a white-space
    suffix, and the trimmed string neither starts nor ends with a white
    space code unit. *)
Theorem trim_strips_only_outer_white_space (s : jsstring) :
  (exists a b, s = a ++ trim s ++ b /\ whitespace_only a /\ whitespace_only b)
  /\ (forall c rest, trim s = c :: rest -> is_white_space c = false)
  /\ (forall c init, trim s = init ++ [c] -> is_white_space c = false).
Proof.
  split; [|split].
  - destruct (trimStart_decompose s) as (a & Ha & Hwa).
    destruct (trimEnd_decompose (trimStart s)) as (b & Hb & Hwb).
    exists a, b. unfold trim. by rewrite <- Hb.
  - intros c rest H. apply (trimStart_head (trim s) c rest).
    unfold trim in *. rewrite trimStart_trimEnd; [done | apply trimStart_idem].
  - intros c init H. apply (trimStart_head (rev (trimStart s)) c (rev init)).
    apply (f_equal (@rev N)) in H. unfold trim, trimEnd in H.
    by rewrite rev_involutive, rev_app_distr in H.
Qed.

(** ** Construction *)

(** X2. A freshly mounted form is idle and shows no message, whatever the
    props. Its priority is never empty: a [null] or empty [initialPriority]
    becomes ["medium"], any other one is kept. Its due date is [null]
    exactly when [initialDueDate] is [null] or empty; otherwise it is the
    parsed date. *)
Theorem mounted_form_is_idle (Date_parse : jsstring -> Date) (p : TaskFormProps) :
  let s := initial_state Date_parse p in
  loading s = false
  /\ validationErrors s = ∅
  /\ error s = []
  /\ render s = mkView false false false false false false false
  /\ priority s <> []
  /\ (forall pr, initialPriority p = Some pr -> pr <> [] -> priority s = pr)
  /\ (initialPriority p = None \/ initialPriority p = Some [] ->
      priority s = lit "medium")
  /\ (dueDate s = None <->
      initialDueDate p = None \/ initialDueDate p = Some [])
  /\ (forall d, initialDueDate p = Some d -> d <> [] ->
      dueDate s = Some (Date_parse d)).
Proof.
  simpl. repeat split; try done.
  - destruct (initialPriority p) as [[|c pr]|]; done.
  - intros pr -> Hpr. by destruct pr.
  - by intros [-> | ->].
  - destruct (initialDueDate p) as [[|c d]|]; simpl; intros H; eauto; done.
  - by intros [-> | ->].
  - intros d -> Hd. by destruct d.
Qed.

(** ** Which fields a submit flags *)

Lemma handleSubmit_begin_records (w : World) :
  validationErrors (component (snd (handleSubmit_begin w)))
  = validation_errors_of (formData (component w))
  /\ error (component (snd (handleSubmit_begin w))) = []
  /\ formData (component (snd (handleSubmit_begin w))) = formData (component w).
Proof.
  destruct (decide (size (validation_errors_of (formData (component w))) = 0))
    as [Hv|Hf].
  - apply passes_validation_size in Hv. by rewrite handleSubmit_begin_valid.
  - apply fails_validation_size in Hf. by rewrite handleSubmit_begin_invalid.
Qed.

Lemma title_flagged_iff (fd : FormData) :
  property_truthy (validation_errors_of fd !! "title") = true <->
  whitespace_only (title fd) \/ 200 < length (title fd).
Proof.
  destruct (decide (whitespace_only (title fd))) as [Hb|Hb].
  { rewrite validation_errors_title_blank by done. split; [by left | done]. }
  destruct (decide (200 < length (title fd))) as [Hl|Hl].
  { rewrite validation_errors_title_long by done. split; [by right | done]. }
  rewrite validation_errors_title_ok by (done || lia). simpl.
  split; [done | intros [?|?]; done].
Qed.

Lemma description_flagged_iff (fd : FormData) :
  property_truthy (validation_errors_of fd !! "description") = true <->
  1000 < length (description fd).
Proof.
  destruct (decide (1000 < length (description fd))) as [Hl|Hl].
  - by rewrite validation_errors_description_long.
  - rewrite validation_errors_description_ok by lia. simpl. split; [done | lia].
Qed.

Lemma truthy_true_iff (m : jsstring) : truthy m = true <-> m <> [].
Proof. by destruct m. Qed.

(** What a completed run of [handleSubmit] leaves in the two message
    cells: the errors of the draft it validated, and the message of the
    failure if the call was made and rejected. *)
Lemma handleSubmit_records
    (p : TaskFormProps) (onSubmit : CallArgs -> Settlement) (w : World) :
  validationErrors (component (snd (handleSubmit p onSubmit w)))
  = validation_errors_of (formData (component w))
  /\ ((fails_validation w
       /\ error (component (snd (handleSubmit p onSubmit w))) = [])
      \/ (passes_validation w
          /\ onSubmit (submit_args (component w)) = Fulfilled
          /\ error (component (snd (handleSubmit p onSubmit w))) = [])
      \/ (passes_validation w
          /\ exists reason,
               onSubmit (submit_args (component w)) = Rejected reason
               /\ error (component (snd (handleSubmit p onSubmit w)))
                  = message_of reason)).
Proof.
  destruct (decide (size (validation_errors_of (formData (component w))) = 0))
    as [Hv|Hf].
  - apply passes_validation_size in Hv. rewrite handleSubmit_valid by done.
    destruct (onSubmit (submit_args (component w))) as [|reason] eqn:Ho.
    + destruct (create_mode p) eqn:Hc.
      * rewrite handleSubmit_resume_fulfilled_create,
          handleSubmit_begin_valid by done. simpl. split; [done|]. by right; left.
      * rewrite handleSubmit_resume_fulfilled_edit,
          handleSubmit_begin_valid by done. simpl. split; [done|]. by right; left.
    + rewrite handleSubmit_resume_rejected, handleSubmit_begin_valid by done.
      simpl. split; [done|]. right; right. split; [done|]. by exists reason.
  - apply fails_validation_size in Hf. rewrite handleSubmit_invalid by done.
    simpl. split; [done|]. by left.
Qed.

(** X3. When a submit attempt has run to completion, the form shows an
    error under the title exactly when the submitted title was blank or
    longer than 200, and an error under the description exactly when it
    was longer than 1000; the same two errors are already shown while the
    call is pending, when no whole-form alert is shown. After completion
    the alert is shown exactly when the draft was valid and the call was
    rejected with a non-empty recorded message. A rejected draft shows at
    least one of the two field errors and no alert. *)
Theorem submit_flags_violated_fields
    (p : TaskFormProps) (onSubmit : CallArgs -> Settlement) (w : World) :
  let fd := formData (component w) in
  let pending_view := render (component (snd (handleSubmit_begin w))) in
  let v := render (component (snd (handleSubmit p onSubmit w))) in
  (title_error_shown v = true <->
   whitespace_only (title fd) \/ 200 < length (title fd))
  /\ (description_error_shown v = true <-> 1000 < length (description fd))
  /\ title_error_shown pending_view = title_error_shown v
  /\ description_error_shown pending_view = description_error_shown v
  /\ error_alert_shown pending_view = false
  /\ (error_alert_shown v = true <->
      passes_validation w
      /\ exists reason, onSubmit (submit_args (component w)) = Rejected reason
                        /\ message_of reason <> [])
  /\ (fails_validation w ->
      (title_error_shown v = true \/ description_error_shown v = true)
      /\ error_alert_shown v = false).
Proof.
  destruct (handleSubmit_begin_records w) as (HE & Herr & _).
  destruct (handleSubmit_records p onSubmit w) as (HE' & Hcases). simpl.
  rewrite HE, HE', Herr.
  split; [apply title_flagged_iff|]. split; [apply description_flagged_iff|].
  split; [reflexivity|]. split; [reflexivity|]. split; [reflexivity|].
  assert (Hexcl : passes_validation w -> fails_validation w -> False).
  { unfold passes_validation, fails_validation. congruence. }
  split.
  - rewrite truthy_true_iff.
    destruct Hcases as [[Hf ->]|[(Hv & Ho & ->)|(Hv & reason & Ho & ->)]].
    + split; [done | intros [Hv _]; by destruct (Hexcl Hv Hf)].
    + split; [done | intros (_ & reason & Hr & _); congruence].
    + split.
      * intros Hm. split; [done|]. by exists reason.
      * intros (_ & reason' & Hr & Hm). congruence.
  - intros Hf. split.
    + apply fails_validation_size in Hf. rewrite validation_errors_size_0 in Hf.
      rewrite title_flagged_iff, description_flagged_iff, <- trim_nil_iff.
      destruct (decide (trim (title (formData (component w))) = [])); [tauto|].
      destruct (decide (200 < length (title (formData (component w)))));
        [tauto|].
      destruct (decide (1000 < length (description (formData (component w)))));
        [tauto|].
      exfalso. apply Hf. repeat split; [done | lia | lia].
    + destruct Hcases as [[_ ->]|[(Hv & _)|(Hv & _)]];
        [done | by destruct (Hexcl Hv Hf) | by destruct (Hexcl Hv Hf)].
Qed.

(** A valid draft whose call is rejected ends with the alert shown. *)
Example submit_rejected_shows_alert :
  error_alert_shown (render (component (snd (handleSubmit edit_props
      (fun _ => Rejected (ErrorInstance (lit "Quota exceeded"))) filled_world))))
  = true.
Proof. vm_compute. reflexivity. Qed.

(** ** Editing *)

Lemma with_property_overwrite (name : string) (v1 v2 : jsstring) (fd : FormData) :
  with_property name v2 (with_property name v1 fd) = with_property name v2 fd.
Proof.
  unfold with_property.
  destruct (String.eqb name "title"); [reflexivity|].
  destruct (String.eqb name "description"); reflexivity.
Qed.

Lemma with_property_commute (n1 n2 : string) (v1 v2 : jsstring) (fd : FormData) :
  n1 <> n2 ->
  with_property n2 v2 (with_property n1 v1 fd)
  = with_property n1 v1 (with_property n2 v2 fd).
Proof.
  intros Hne. unfold with_property.
  destruct (String.eqb_spec n1 "title"), (String.eqb_spec n2 "title"),
    (String.eqb_spec n1 "description"), (String.eqb_spec n2 "description");
    simpl; first [reflexivity | congruence].
Qed.

Lemma lookup_truthy_insert_None (m : gmap string (option jsstring)) (name : string) :
  lookup_truthy (<[name := None]> m) name = false.
Proof. unfold lookup_truthy. by rewrite lookup_insert_eq. Qed.

Lemma lookup_truthy_insert_ne (m : gmap string (option jsstring))
    (name k : string) (v : option jsstring) :
  name <> k -> lookup_truthy (<[name := v]> m) k = lookup_truthy m k.
Proof. intros Hne. unfold lookup_truthy. by rewrite lookup_insert_ne. Qed.

Lemma lookup_truthy_false_own (m : gmap string (option jsstring)) (name : string) :
  lookup_truthy m name = false -> property_truthy (m !! name) = false.
Proof. unfold lookup_truthy. by destruct (m !! name). Qed.

(** X4. After an edit the lookup of line 101 for the edited name is falsy,
    so the edited field shows no error, whether one was recorded or not.
    The entries of all other keys are kept. The mapping is left untouched
    (no key is added) exactly when that lookup was falsy before, which for
    the two field names means that no error was recorded; when it was
    truthy the key is bound to [undefined], also for a name that was only
    found on the prototype. The edit changes no other cell than the form
    data and produces no outside effect. *)
Theorem handleChange_never_leaves_error
    (name : string) (value : jsstring) (w : World) :
  let m := validationErrors (component w) in
  let w' := snd (handleChange name value w) in
  lookup_truthy (validationErrors (component w')) name = false
  /\ property_truthy (validationErrors (component w') !! name) = false
  /\ (forall k : string, k <> name ->
        validationErrors (component w') !! k = m !! k)
  /\ (lookup_truthy m name = false -> validationErrors (component w') = m)
  /\ (lookup_truthy m name = true ->
        validationErrors (component w') = <[name := None]> m)
  /\ (name = "title" \/ name = "description" ->
        lookup_truthy m name = property_truthy (m !! name))
  /\ (inherited_property name = true -> m !! name = None ->
        validationErrors (component w') !! name = Some None)
  /\ formData (component w') = with_property name value (formData (component w))
  /\ category (component w') = category (component w)
  /\ priority (component w') = priority (component w)
  /\ dueDate (component w') = dueDate (component w)
  /\ loading (component w') = loading (component w)
  /\ error (component w') = error (component w)
  /\ effects w' = effects w.
Proof.
  rewrite handleChange_run. simpl.
  pose proof (lookup_truthy_field (validationErrors (component w)) name) as Hfield.
  destruct (lookup_truthy (validationErrors (component w)) name) eqn:He.
  - rewrite lookup_truthy_insert_None, lookup_insert_eq.
    repeat split; try done.
    intros k Hk. by rewrite lookup_insert_ne.
  - rewrite He, (lookup_truthy_false_own _ _ He).
    repeat split; try done.
    intros Hi Hn. unfold lookup_truthy in He. rewrite Hn in He. congruence.
Qed.

(** An edit arriving under the name [constructor] finds the inherited
    property and adds the key; an edit of the title of a form without
    errors adds nothing. *)
Example handleChange_inherited_name :
  validationErrors (component (snd (handleChange "constructor" (lit "x")
                                      (draft_world [] [] [])))) !! "constructor"
  = Some None
  /\ validationErrors (component (snd (handleChange "title" (lit "x")
                                         (draft_world [] [] [])))) = ∅.
Proof. split; reflexivity. Qed.

(** X5. Of two successive edits of the same field only the second one
    counts: the world is the one the second edit alone would have given. *)
Theorem handleChange_last_edit_wins
    (name : string) (v1 v2 : jsstring) (w : World) :
  handleChange name v2 (snd (handleChange name v1 w)) = handleChange name v2 w.
Proof.
  rewrite !handleChange_run. simpl. rewrite with_property_overwrite.
  destruct (lookup_truthy (validationErrors (component w)) name) eqn:He.
  - by rewrite lookup_truthy_insert_None.
  - by rewrite He.
Qed.

(** X6. Edits of two different fields commute: typing the title and then
    the description gives the same world as the other order, also in the
    error mapping. *)
Theorem handleChange_commute
    (n1 n2 : string) (v1 v2 : jsstring) (w : World) :
  n1 <> n2 ->
  snd (handleChange n2 v2 (snd (handleChange n1 v1 w)))
  = snd (handleChange n1 v1 (snd (handleChange n2 v2 w))).
Proof.
  intros Hne. rewrite !handleChange_run. simpl.
  rewrite (with_property_commute n1 n2) by done.
  destruct (lookup_truthy (validationErrors (component w)) n1) eqn:H1,
           (lookup_truthy (validationErrors (component w)) n2) eqn:H2;
    rewrite ?lookup_truthy_insert_ne by done; rewrite ?H1, ?H2;
    try reflexivity.
  by rewrite (insert_insert_ne _ n1 n2).
Qed.

Lemma handleChange_commute_witness :
  snd (handleChange "description" (lit "two litres")
         (snd (handleChange "title" (lit "Buy milk") rejected_world)))
  = snd (handleChange "title" (lit "Buy milk")
           (snd (handleChange "description" (lit "two litres") rejected_world))).
Proof.
  apply (handleChange_commute "title" "description"). discriminate.
Defined.

(** ** One submit, from click to settlement *)

Lemma passes_or_fails (w : World) : passes_validation w \/ fails_validation w.
Proof.
  destruct (decide (size (validation_errors_of (formData (component w))) = 0)).
  - left. by apply passes_validation_size.
  - right. by apply fails_validation_size.
Qed.

(** X7. One run of [handleSubmit] adds to the effect trace nothing when the
    draft is rejected, the single call of [onSubmit] when the call is
    fulfilled, and the call followed by one error notification when it is
    rejected. So the callback is invoked at most once per submit, and a
    notification is only ever emitted after a call that failed. *)
Theorem handleSubmit_effects
    (p : TaskFormProps) (onSubmit : CallArgs -> Settlement) (w : World) :
  let args := submit_args (component w) in
  let w' := snd (handleSubmit p onSubmit w) in
  (fails_validation w /\ effects w' = effects w)
  \/ (passes_validation w /\ onSubmit args = Fulfilled
      /\ effects w' = effects w ++ [CallOnSubmit args])
  \/ (passes_validation w /\ (exists reason, onSubmit args = Rejected reason)
      /\ effects w' = effects w ++ [CallOnSubmit args;
                                    ToastError (lit "Failed to save task")]).
Proof.
  destruct (passes_or_fails w) as [Hv|Hf]; simpl.
  - right. rewrite handleSubmit_valid by done.
    destruct (onSubmit (submit_args (component w))) as [|reason] eqn:Ho.
    + left. split; [done|]. split; [done|].
      destruct (create_mode p) eqn:Hc.
      * rewrite handleSubmit_resume_fulfilled_create by done.
        by rewrite handleSubmit_begin_valid.
      * rewrite handleSubmit_resume_fulfilled_edit by done.
        by rewrite handleSubmit_begin_valid.
    + right. split; [done|]. split; [by eexists|].
      rewrite handleSubmit_resume_rejected, handleSubmit_begin_valid by done.
      simpl. by rewrite <- app_assoc.
  - left. split; [done|]. by rewrite handleSubmit_invalid.
Qed.

(** X9. After a successful submit in create mode the form is blank again,
    so a second submit without typing is rejected with the required-title
    error and does not reach [onSubmit]. *)
Theorem handleSubmit_twice_in_create_mode
    (p : TaskFormProps) (onSubmit onSubmit' : CallArgs -> Settlement) (w : World) :
  initialTitle p = [] ->
  initialDescription p = [] ->
  passes_validation w ->
  onSubmit (submit_args (component w)) = Fulfilled ->
  let w1 := snd (handleSubmit p onSubmit w) in
  let w2 := snd (handleSubmit p onSubmit' w1) in
  fails_validation w1
  /\ effects w2 = effects w1
  /\ validationErrors (component w2) !! "title" = Some (Some msg_title_required)
  /\ loading (component w2) = false.
Proof.
  intros Ht Hd Hv Hs. simpl.
  assert (Hc : create_mode p = true) by (unfold create_mode; by rewrite Ht, Hd).
  rewrite handleSubmit_valid, Hs, handleSubmit_resume_fulfilled_create by done.
  match goal with |- fails_validation ?w1 /\ _ =>
    assert (Hf : fails_validation w1) by (vm_compute; reflexivity) end.
  split; [done|]. rewrite handleSubmit_invalid by done. simpl.
  split; [done|]. split; [|done].
  apply validation_errors_title_blank. constructor.
Qed.

Lemma handleSubmit_twice_in_create_mode_witness :
  let w1 := snd (handleSubmit create_props (fun _ => Fulfilled) filled_world) in
  let w2 := snd (handleSubmit create_props (fun _ => Fulfilled) w1) in
  fails_validation w1
  /\ effects w2 = effects w1
  /\ validationErrors (component w2) !! "title" = Some (Some msg_title_required)
  /\ loading (component w2) = false.
Proof.
  apply (handleSubmit_twice_in_create_mode create_props (fun _ => Fulfilled)
           (fun _ => Fulfilled) filled_world).
  - reflexivity.
  - reflexivity.
  - vm_compute. reflexivity.
  - reflexivity.
Defined.

(** X10. A successful submit leaves nothing on screen to correct: the
    error mapping is empty (errors recorded by an earlier attempt are
    gone), no field error and no alert is shown, and every control is
    enabled. *)
Theorem handleSubmit_success_shows_no_message
    (p : TaskFormProps) (onSubmit : CallArgs -> Settlement) (w : World) :
  passes_validation w ->
  onSubmit (submit_args (component w)) = Fulfilled ->
  let w' := snd (handleSubmit p onSubmit w) in
  validationErrors (component w') = ∅
  /\ error (component w') = []
  /\ render (component w') = mkView false false false false false false false.
Proof.
  intros Hv Hs. simpl.
  assert (HE : validation_errors_of (formData (component w)) = ∅).
  { apply map_size_empty_iff. by apply passes_validation_size. }
  rewrite handleSubmit_valid, Hs by done.
  destruct (create_mode p) eqn:Hc.
  - rewrite handleSubmit_resume_fulfilled_create, handleSubmit_begin_valid by done.
    simpl. by rewrite HE.
  - rewrite handleSubmit_resume_fulfilled_edit, handleSubmit_begin_valid by done.
    simpl. by rewrite HE.
Qed.

Lemma handleSubmit_success_shows_no_message_witness :
  let w' := snd (handleSubmit edit_props (fun _ => Fulfilled) filled_world) in
  validationErrors (component w') = ∅
  /\ error (component w') = []
  /\ render (component w') = mkView false false false false false false false.
Proof.
  apply (handleSubmit_success_shows_no_message edit_props (fun _ => Fulfilled)
           filled_world).
  - vm_compute. reflexivity.
  - reflexivity.
Defined.



(** ** The recorded error texts *)

Lemma validation_errors_well_formed (fd : FormData) :
  well_formed_errors (validation_errors_of fd).
Proof.
  intros k v Hk. rewrite validation_errors_of_cases in Hk.
  destruct (negb (truthy (trim (title fd)))), (200 <? length (title fd))%nat,
    (1000 <? length (description fd))%nat; simpl in Hk;
    repeat (apply lookup_insert_Some in Hk as [[<- <-]|[_ Hk]]; [by eauto 8|]);
    try (apply lookup_singleton_Some in Hk as [<- <-]; by eauto 8);
    by rewrite lookup_empty in Hk.
Qed.

Lemma run_event_well_formed (p : TaskFormProps) (ev : Event) (w : World) :
  well_formed_errors (validationErrors (component w)) ->
  well_formed_errors (validationErrors (component (run_event p ev w))).
Proof.
  intros Hwf.
  destruct ev as [name value|c|pr|d| |o]; cbn [run_event]; try done.
  - rewrite handleChange_run. simpl.
    destruct (lookup_truthy (validationErrors (component w)) name) eqn:He;
      [|done].
    intros k v Hk. apply lookup_insert_Some in Hk as [[<- <-]|[_ Hk]];
      [|by apply Hwf].
    unfold lookup_truthy in He.
    destruct (validationErrors (component w) !! name) as [v0|] eqn:Hn.
    + destruct (Hwf _ _ Hn) as [[-> _]|[[-> _]|[Hi _]]]; eauto 8.
    + eauto 8.
  - destruct (handleSubmit_begin_records w) as (-> & _).
    apply validation_errors_well_formed.
  - destruct o as [|reason].
    + destruct (create_mode p) eqn:Hc.
      * by rewrite handleSubmit_resume_fulfilled_create.
      * by rewrite handleSubmit_resume_fulfilled_edit.
    + by rewrite handleSubmit_resume_rejected.
Qed.

(** X12. In every world reachable from the mount, by handler invocations
    under any name, the [title] entry of the error mapping is [undefined]
    or one of the two title texts of [validateForm], the [description]
    entry is [undefined] or the description text, and any other key is a
    property name of [Object.prototype] bound to [undefined] (line 102 adds
    it when an edit arrives under such a name). So nothing but those three
    texts is ever displayed under a field. *)
Theorem reachable_errors_well_formed
    (Date_parse : jsstring -> Date) (p : TaskFormProps) (w : World) :
  reachable Date_parse p w ->
  well_formed_errors (validationErrors (component w)).
Proof.
  induction 1 as [|w ev _ IH].
  - intros k v Hk. simpl in Hk. by rewrite lookup_empty in Hk.
  - by apply run_event_well_formed.
Qed.

Lemma reachable_errors_well_formed_witness :
  well_formed_errors (validationErrors (component edited_after_rejection)).
Proof.
  apply (reachable_errors_well_formed (fun _ => 0%Z) create_props).
  unfold edited_after_rejection. do 3 apply reachable_event.
  apply reachable_mounted.
Defined.

(** The mapping of that world: the title error cleared by the edit, and the
    key added by the edit under [constructor]. *)
Example edited_after_rejection_errors :
  map_to_list (validationErrors (component edited_after_rejection))
  ≡ₚ [("title", None); ("constructor", None)].
Proof. vm_compute. by constructor. Qed.

(** ** Sessions *)

Lemma calls_of_snoc_call (es : list Effect) (a : CallArgs) :
  calls_of (es ++ [CallOnSubmit a]) = calls_of es ++ [a].
Proof. unfold calls_of. by rewrite omap_app. Qed.

Lemma calls_of_snoc_toast (es : list Effect) (m : jsstring) :
  calls_of (es ++ [ToastError m]) = calls_of es.
Proof. unfold calls_of. rewrite omap_app. simpl. by rewrite app_nil_r. Qed.

Lemma notifications_of_snoc_call (es : list Effect) (a : CallArgs) :
  notifications_of (es ++ [CallOnSubmit a]) = notifications_of es.
Proof. unfold notifications_of. rewrite omap_app. simpl. by rewrite app_nil_r. Qed.

Lemma notifications_of_snoc_toast (es : list Effect) (m : jsstring) :
  notifications_of (es ++ [ToastError m]) = notifications_of es ++ [m].
Proof. unfold notifications_of. by rewrite omap_app. Qed.

Lemma ui_invariant_idle (s : Session) :
  ui_invariant s -> loading (component (world s)) = false -> pending s = [].
Proof.
  intros ([_ Hl] & _) Hidle. destruct (pending s) as [|a rest]; [done|].
  rewrite Hl in Hidle; done.
Qed.

Lemma ui_step_invariant (p : TaskFormProps) (ev : UserEvent) (s : Session) :
  ui_invariant s -> ui_invariant (ui_step p ev s).
Proof.
  intros Hinv. pose proof Hinv as (Hload & Hlen & Hargs & Hcount).
  destruct ev as [value|value|c|pr|d| |o]; cbn [ui_step];
    [simpl | simpl | done | done | done | simpl | ].
  - destruct (loading (component (world s))) eqn:Hl; [done|].
    pose proof (ui_invariant_idle s Hinv Hl) as Hp.
    rewrite handleChange_run. unfold ui_invariant. simpl.
    rewrite Hp in *. rewrite Hl. repeat split; try done; simpl in *; lia.
  - destruct (loading (component (world s))) eqn:Hl; [done|].
    pose proof (ui_invariant_idle s Hinv Hl) as Hp.
    rewrite handleChange_run. unfold ui_invariant. simpl.
    rewrite Hp in *. rewrite Hl. repeat split; try done; simpl in *; lia.
  - destruct (loading (component (world s))) eqn:Hl; [done|].
    pose proof (ui_invariant_idle s Hinv Hl) as Hp.
    destruct (passes_or_fails (world s)) as [Hv|Hf].
    + rewrite handleSubmit_begin_valid by done. unfold ui_invariant. simpl.
      rewrite Hp in *. simpl in *.
      rewrite calls_of_snoc_call, notifications_of_snoc_call, length_app. simpl.
      repeat split; try done; try lia;
        match goal with H : _ = _ \/ False |- _ => by destruct H as [<-|[]] end.
    + rewrite handleSubmit_begin_invalid by done. unfold ui_invariant. simpl.
      rewrite Hp in *. rewrite Hl. repeat split; try done; simpl in *; lia.
  - destruct (pending s) as [|a rest] eqn:Hp; [done|].
    assert (rest = []) as -> by (destruct rest; [done | simpl in Hlen; lia]).
    simpl in Hcount. unfold ui_invariant.
    destruct o as [|reason]; [destruct (create_mode p) eqn:Hc|].
    + rewrite handleSubmit_resume_fulfilled_create by done. simpl.
      repeat split; try done; lia.
    + rewrite handleSubmit_resume_fulfilled_edit by done. simpl.
      repeat split; try done; lia.
    + rewrite handleSubmit_resume_rejected. simpl.
      rewrite calls_of_snoc_toast, notifications_of_snoc_toast, length_app. simpl.
      repeat split; try done; lia.
Qed.

Lemma ui_run_invariant (p : TaskFormProps) (evs : list UserEvent) (s : Session) :
  ui_invariant s -> ui_invariant (ui_run p evs s).
Proof.
  revert s. induction evs as [|ev evs IH]; intros s Hinv; [done|].
  simpl. apply IH. by apply ui_step_invariant.
Qed.

Lemma ui_mounted_invariant (Date_parse : jsstring -> Date) (p : TaskFormProps) :
  ui_invariant (ui_mounted Date_parse p).
Proof. unfold ui_invariant. simpl. repeat split; try done; lia. Qed.

Lemma ui_run_pending_valid (p : TaskFormProps) (evs : list UserEvent) (s : Session) :
  ui_invariant s ->
  (pending s <> [] -> passes_validation (world s)) ->
  pending (ui_run p evs s) <> [] -> passes_validation (world (ui_run p evs s)).
Proof.
  revert s. induction evs as [|ev evs IH]; intros s Hinv Hval; [done|].
  simpl. apply IH; [by apply ui_step_invariant|].
  pose proof Hinv as (Hload & Hlen & _).
  destruct ev as [value|value|c|pr|d| |o]; cbn [ui_step].
  - simpl. destruct (loading (component (world s))) eqn:Hl; [done|].
    by rewrite (ui_invariant_idle s Hinv Hl).
  - simpl. destruct (loading (component (world s))) eqn:Hl; [done|].
    by rewrite (ui_invariant_idle s Hinv Hl).
  - simpl. intros Hp. by apply (passes_validation_formData (world s)), Hval.
  - simpl. intros Hp. by apply (passes_validation_formData (world s)), Hval.
  - simpl. intros Hp. by apply (passes_validation_formData (world s)), Hval.
  - simpl. destruct (loading (component (world s))) eqn:Hl; [done|].
    rewrite (ui_invariant_idle s Hinv Hl).
    destruct (passes_or_fails (world s)) as [Hv|Hf].
    + rewrite handleSubmit_begin_valid by done. simpl. intros _.
      by apply (passes_validation_formData (world s)).
    + by rewrite handleSubmit_begin_invalid.
  - destruct (pending s) as [|a rest] eqn:Hp; [done|].
    assert (rest = []) as -> by (destruct rest; [done | simpl in Hlen; lia]).
    done.
Qed.

Lemma ui_clicks_while_loading (p : TaskFormProps) (n : nat) (s : Session) :
  loading (component (world s)) = true ->
  ui_run p (repeat ClickSubmit n) s = s.
Proof.
  intros Hl. induction n as [|n IH]; [done|].
  simpl. by rewrite Hl.
Qed.

(** C5: in every session driven through the rendered controls, while a
    call of [onSubmit] has not settled the form is in the submitting state
    ([loading] is true and the submit button disabled), that call is the
    only one in flight, and any number of further submit attempts leave the
    whole session as it is: no cell changes and [onSubmit] is not called
    again. Once that call settles, whatever the outcome, the form is idle
    and the button enabled again. *)
Theorem ui_submit_while_pending_is_noop
    (Date_parse : jsstring -> Date) (p : TaskFormProps) (evs : list UserEvent)
    (n : nat) :
  let s := ui_run p evs (ui_mounted Date_parse p) in
  pending s <> [] ->
  loading (component (world s)) = true
  /\ submit_button_disabled (render (component (world s))) = true
  /\ (exists a, pending s = [a])
  /\ ui_run p (repeat ClickSubmit n) s = s
  /\ calls_of (effects (world (ui_run p (repeat ClickSubmit n) s)))
     = calls_of (effects (world s))
  /\ (forall o : Settlement,
        let s' := ui_step p (Settled o) s in
        pending s' = []
        /\ loading (component (world s')) = false
        /\ submit_button_disabled (render (component (world s'))) = false).
Proof.
  intros s Hp.
  destruct (ui_run_invariant p evs _ (ui_mounted_invariant Date_parse p))
    as (Hload & Hlen & _). fold s in Hload, Hlen.
  assert (Hl : loading (component (world s)) = true) by by apply Hload.
  assert (Hone : exists a, pending s = [a]).
  { destruct (pending s) as [|a [|b rest]]; [done | by exists a |].
    simpl in Hlen. lia. }
  split; [done|]. split; [done|]. split; [done|].
  rewrite ui_clicks_while_loading by done.
  split; [done|]. split; [done|].
  intros o. destruct Hone as [a Ha]. cbn [ui_step]. rewrite Ha.
  destruct (handleSubmit_resume_idle p o (world s)) as (w' & Hw' & Hidle).
  rewrite Hw'. simpl. by rewrite Hidle.
Qed.

Lemma ui_submit_while_pending_is_noop_witness :
  loading (component (world sample_session)) = true
  /\ submit_button_disabled (render (component (world sample_session))) = true
  /\ (exists a, pending sample_session = [a])
  /\ ui_run create_props (repeat ClickSubmit 3) sample_session = sample_session
  /\ calls_of (effects (world (ui_run create_props (repeat ClickSubmit 3)
                                 sample_session)))
     = calls_of (effects (world sample_session))
  /\ (forall o : Settlement,
        let s' := ui_step create_props (Settled o) sample_session in
        pending s' = []
        /\ loading (component (world s')) = false
        /\ submit_button_disabled (render (component (world s'))) = false).
Proof.
  apply (ui_submit_while_pending_is_noop (fun _ => 0%Z) create_props
           sample_events 3).
  vm_compute. discriminate.
Defined.

(** Three clicks on the submit button of a valid draft make one call. *)
Example three_clicks_one_call :
  length (calls_of (effects (world
    (ui_run create_props
       [TypeTitle (lit "Buy milk"); ClickSubmit; ClickSubmit; ClickSubmit]
       (ui_mounted (fun _ => 0%Z) create_props))))) = 1.
Proof. vm_compute. reflexivity. Qed.

(** X13. Driven through its controls, the form never has more than one
    call of [onSubmit] unsettled, and [loading] is true exactly while one
    is: the disabled submit button is what makes a second click during a
    pending call a no-op. *)
Theorem ui_at_most_one_call_in_flight
    (Date_parse : jsstring -> Date) (p : TaskFormProps) (evs : list UserEvent) :
  let s := ui_run p evs (ui_mounted Date_parse p) in
  length (pending s) <= 1
  /\ (loading (component (world s)) = true <-> pending s <> []).
Proof.
  destruct (ui_run_invariant p evs _ (ui_mounted_invariant Date_parse p))
    as (Hload & Hlen & _). done.
Qed.

(** X14. While a call is pending the two text fields cannot be edited, so
    the title and description it was given are still the trimmed title and
    description of the draft on screen (the selectors stay enabled, and the
    other three arguments may have been changed since). *)
Theorem ui_pending_call_matches_draft
    (Date_parse : jsstring -> Date) (p : TaskFormProps) (evs : list UserEvent)
    (a : CallArgs) :
  let s := ui_run p evs (ui_mounted Date_parse p) in
  In a (pending s) ->
  arg_title a = trim (title (formData (component (world s))))
  /\ arg_description a = trim (description (formData (component (world s)))).
Proof.
  destruct (ui_run_invariant p evs _ (ui_mounted_invariant Date_parse p))
    as (_ & _ & Hargs & _). apply Hargs.
Qed.

Lemma ui_pending_call_matches_draft_witness :
  arg_title (submit_args (component (snd (handleChange "title" (lit " Buy milk ")
                (mounted (fun _ => 0%Z) create_props)))))
  = trim (title (formData (component (world sample_session))))
  /\ arg_description (submit_args (component (snd (handleChange "title"
                (lit " Buy milk ") (mounted (fun _ => 0%Z) create_props)))))
     = trim (description (formData (component (world sample_session)))).
Proof.
  apply (ui_pending_call_matches_draft (fun _ => 0%Z) create_props
           [TypeTitle (lit " Buy milk "); ClickSubmit;
            PickCategory (Some (lit "home"))]).
  vm_compute. left. reflexivity.
Defined.

(** The category picked while the call was pending is not the one the call
    was given. *)
Example sample_session_category :
  category (component (world sample_session)) = Some (lit "home")
  /\ map arg_category (pending sample_session) = [None].
Proof. vm_compute. split; reflexivity. Qed.

(** X8. Through the controls, a retry made right after a failed
    submission is accepted and makes exactly one new call. That call has the
    title and description of the failed one (the text inputs were disabled
    while it was pending) and the category, priority and due date selected
    at the time of the retry; so it has the arguments of the failed call
    whenever the three selectors still show what that call was given. *)
Theorem ui_retry_after_failure
    (Date_parse : jsstring -> Date) (p : TaskFormProps) (evs : list UserEvent)
    (a : CallArgs) (reason : Thrown) :
  let s := ui_run p evs (ui_mounted Date_parse p) in
  pending s = [a] ->
  let s2 := ui_step p ClickSubmit (ui_step p (Settled (Rejected reason)) s) in
  let a' := submit_args (component (world s)) in
  pending s2 = [a']
  /\ calls_of (effects (world s2)) = calls_of (effects (world s)) ++ [a']
  /\ arg_title a' = arg_title a
  /\ arg_description a' = arg_description a
  /\ (arg_category a = category (component (world s)) ->
      arg_priority a = priority (component (world s)) ->
      arg_dueDate a = dueDate (component (world s)) ->
      a' = a).
Proof.
  intros s Hp.
  destruct (ui_run_invariant p evs _ (ui_mounted_invariant Date_parse p))
    as (_ & _ & Hargs & _). fold s in Hargs.
  assert (Hv : passes_validation (world s)).
  { apply ui_run_pending_valid; [apply ui_mounted_invariant | done |].
    fold s. by rewrite Hp. }
  destruct (Hargs a) as [Ht Hd]; [rewrite Hp; by left|].
  cbn [ui_step]. rewrite Hp, handleSubmit_resume_rejected. simpl.
  match goal with |- context [handleSubmit_begin ?w1] =>
    assert (Hv1 : passes_validation w1)
      by (by apply (passes_validation_formData (world s) w1));
    rewrite (handleSubmit_begin_valid w1 Hv1) end.
  simpl. rewrite calls_of_snoc_call, calls_of_snoc_toast.
  repeat split; try done.
  intros Hc Hpr Hdd. destruct a. simpl in *. unfold submit_args. congruence.
Qed.

Lemma ui_retry_after_failure_witness :
  let s2 := ui_step create_props ClickSubmit
              (ui_step create_props
                 (Settled (Rejected (ErrorInstance (lit "Quota exceeded"))))
                 sample_session) in
  let a' := submit_args (component (world sample_session)) in
  pending s2 = [a']
  /\ calls_of (effects (world s2))
     = calls_of (effects (world sample_session)) ++ [a']
  /\ arg_title a' = lit "Buy milk"
  /\ arg_description a' = []
  /\ (None = category (component (world sample_session)) ->
      lit "medium" = priority (component (world sample_session)) ->
      None = dueDate (component (world sample_session)) ->
      a' = mkCall (lit "Buy milk") [] None (lit "medium") None).
Proof.
  apply (ui_retry_after_failure (fun _ => 0%Z) create_props sample_events
           (mkCall (lit "Buy milk") [] None (lit "medium") None)
           (ErrorInstance (lit "Quota exceeded"))).
  vm_compute. reflexivity.
Defined.

(** In the sample session the category was changed while the call was
    pending: the retry carries the new category. *)
Example retry_after_selection :
  let s2 := ui_step create_props ClickSubmit
              (ui_step create_props (Settled (Rejected (NotAnError None)))
                 sample_session) in
  map arg_category (calls_of (effects (world s2))) = [None; Some (lit "home")].
Proof. vm_compute. reflexivity. Qed.

(** X15. In a session every error notification belongs to a call that has
    settled: the notifications and the pending calls together never
    outnumber the calls made. *)
Theorem ui_notifications_follow_calls
    (Date_parse : jsstring -> Date) (p : TaskFormProps) (evs : list UserEvent) :
  let s := ui_run p evs (ui_mounted Date_parse p) in
  length (notifications_of (effects (world s))) + length (pending s)
  <= length (calls_of (effects (world s))).
Proof.
  destruct (ui_run_invariant p evs _ (ui_mounted_invariant Date_parse p))
    as (_ & _ & _ & Hcount). done.
Qed.

(** ** The first submit *)

(** X16. A form mounted with a blank initial title (in particular every
    form in create mode) rejects a submit made before anything is typed:
    [onSubmit] is not called, the form stays idle, the draft is the
    mounted one and the title carries the required-title error. *)
Theorem submit_right_after_mount_rejected
    (Date_parse : jsstring -> Date) (p : TaskFormProps)
    (onSubmit : CallArgs -> Settlement) :
  whitespace_only (initialTitle p) ->
  let w' := snd (handleSubmit p onSubmit (mounted Date_parse p)) in
  effects w' = []
  /\ loading (component w') = false
  /\ formData (component w') = formData (initial_state Date_parse p)
  /\ validationErrors (component w') !! "title" = Some (Some msg_title_required).
Proof.
  intros Hb. simpl.
  assert (Ht : validation_errors_of
                 (formData (component (mounted Date_parse p))) !! "title"
               = Some (Some msg_title_required))
    by by apply validation_errors_title_blank.
  assert (Hf : fails_validation (mounted Date_parse p)).
  { apply fails_validation_size. rewrite map_size_empty_iff. intros HE.
    by rewrite HE, lookup_empty in Ht. }
  by rewrite handleSubmit_invalid.
Qed.

Lemma submit_right_after_mount_rejected_witness :
  let w' := snd (handleSubmit create_props (fun _ => Fulfilled)
                   (mounted (fun _ => 0%Z) create_props)) in
  effects w' = []
  /\ loading (component w') = false
  /\ formData (component w') = formData (initial_state (fun _ => 0%Z) create_props)
  /\ validationErrors (component w') !! "title" = Some (Some msg_title_required).
Proof.
  apply (submit_right_after_mount_rejected (fun _ => 0%Z) create_props
           (fun _ => Fulfilled)).
  constructor.
Defined.

(** ** The progress indicator and the counters *)

(** X17. A draft that passes validation has its title dot green, a title
    counter between 1 and 200 and a description counter of at most 1000.
    (The converse fails: the dot tests the untrimmed title.) *)
Theorem valid_draft_indicators (w : World) :
  passes_validation w ->
  let i := render_indicators (component w) in
  title_dot i = true
  /\ 1 <= title_counter i <= 200
  /\ description_counter i <= 1000.
Proof.
  intros Hv%passes_validation_size%validation_errors_size_0.
  destruct Hv as (Hb & Hl & Hl'). simpl.
  destruct (title (formData (component w))) as [|c t] eqn:Ht; [done|].
  simpl in *. repeat split; [lia | lia | lia].
Qed.

Lemma valid_draft_indicators_witness :
  let i := render_indicators (component filled_world) in
  title_dot i = true
  /\ 1 <= title_counter i <= 200
  /\ description_counter i <= 1000.
Proof.
  apply (valid_draft_indicators filled_world). vm_compute. reflexivity.
Defined.

Example blank_title_green_but_rejected :
  title_dot (render_indicators (component (draft_world (lit "  ") [] []))) = true
  /\ fails_validation (draft_world (lit "  ") [] []).
Proof. split; vm_compute; reflexivity. Qed.

(** ** The two copies of the component *)

Lemma validation_errors_of_v2_cases (fd : FormData) :
  validation_errors_of_v2 fd =
    (if (1000 <? length (description fd))%nat
     then <["description" := Some msg_description_too_long_v2]> else id)
      (if negb (truthy (trim (title fd)))
       then {["title" := Some msg_title_required_v2]}
       else if (200 <? length (title fd))%nat
            then {["title" := Some msg_title_too_long_v2]}
            else ∅).
Proof.
  unfold validation_errors_of_v2.
  destruct (negb (truthy (trim (title fd)))), (200 <? length (title fd))%nat,
    (1000 <? length (description fd))%nat; by rewrite ?insert_empty.
Qed.

(** X18. The two copies of [validateForm] in the repository differ in the
    message texts only: on every draft they flag the same fields, show an
    error under the same fields, and accept the same drafts. *)
Theorem validation_copies_agree (fd : FormData) :
  (forall k : string,
     is_Some (validation_errors_of_v2 fd !! k)
     <-> is_Some (validation_errors_of fd !! k))
  /\ (forall k : string,
        property_truthy (validation_errors_of_v2 fd !! k)
        = property_truthy (validation_errors_of fd !! k))
  /\ (size (validation_errors_of_v2 fd) = 0
      <-> size (validation_errors_of fd) = 0).
Proof.
  assert (Hk : forall k : string,
    (is_Some (validation_errors_of_v2 fd !! k)
     <-> is_Some (validation_errors_of fd !! k))
    /\ property_truthy (validation_errors_of_v2 fd !! k)
       = property_truthy (validation_errors_of fd !! k)).
  { intros k.
    rewrite validation_errors_of_cases, validation_errors_of_v2_cases.
    destruct (negb (truthy (trim (title fd)))), (200 <? length (title fd))%nat,
      (1000 <? length (description fd))%nat; simpl;
      (destruct (decide (k = "title")) as [->|?];
       [|destruct (decide (k = "description")) as [->|?]]);
      simplify_map_eq; split; (done || by rewrite !is_Some_alt). }
  split; [intros k; apply Hk|]. split; [intros k; apply Hk|].
  rewrite !map_size_empty_iff, !map_empty.
  split; intros H k; apply eq_None_not_Some; intros Hs;
    apply Hk in Hs; rewrite H in Hs; by destruct Hs.
Qed.
